(** * inspector-metrics: reporters, dedup policy, interprocess messages, influx sender

    Shallow embedding of
    - the CSV metric reporter ([CsvMetricReporter], [Module Csv]),
    - the logger reporter's formatting functions ([LoggerReporter], [Module Logger]),
    - the interprocess report message ([InterprocessReportMessage], [Module Interprocess]),
    - the InfluxDB sender ([DefaultSender], [Module Influx]).

    JavaScript values are modelled as follows.
    - [number]: a finite value is an integer ([Num z]); not-a-number is [NaN].
      Counts and millisecond timestamps are integers well inside the exact
      range of a double; fractions and infinities are outside the model.
    - [Map<string, string>]: [gmap string string].  A plain object used as a
      map: the [gmap] of its own properties, written through [Object_set].
      A JavaScript map iterates in insertion order, [map_fold] in the map's
      canonical order; only results that do not depend on the order are stated.
    - [undefined] / [null]: [None].
    - exceptions: the [result] type with [Throw].
    - promises: an [async] function is run to completion; a rejected promise
      is [Throw]. *)

From Stdlib Require Import ZArith String List Bool Lia.
From stdpp Require Import base option list gmap strings fin_maps.
Import ListNotations.

(** ** JavaScript values *)

Module Js.

Inductive number : Type :=
| NaN
| Num (z : Z).

(** [isNaN(n)] *)
Definition isNaN (n : number) : bool :=
  match n with
  | NaN => true
  | Num _ => false
  end.

(** [a === b] on numbers: [NaN] equals nothing, itself included. *)
Definition strict_eq (a b : number) : bool :=
  match a, b with
  | Num x, Num y => (x =? y)%Z
  | _, _ => false
  end.

(** [a !== b] *)
Definition strict_neq (a b : number) : bool := negb (strict_eq a b).

Inductive Error : Type :=
| TypeError (message : string).

Inductive result (A : Type) : Type :=
| Return (a : A)
| Throw (e : Error).
Arguments Return {A} a.
Arguments Throw {A} e.

Definition bind {A B : Type} (c : result A) (k : A -> result B) : result B :=
  match c with
  | Return a => k a
  | Throw e => Throw e
  end.

(** A [Date]; [getTime()] is its millisecond timestamp. *)
Record Date : Type := mkDate { getTime : Z }.

#[global] Instance result_ret : MRet result := fun A a => Return a.
#[global] Instance result_bind : MBind result := fun A B k c => bind c k.

End Js.

(** ** The CSV metric reporter *)

Module Csv.
Import Js.

(** [type MetricType] *)
Inductive MetricType : Type :=
| counter | gauge | histogram | meter | timer_type.

(** [interface MetricEntry] *)
Record MetricEntry : Type := mkMetricEntry {
  lastReport : Z;
  lastValue : number
}.

(** [type ColumnType] *)
Inductive ColumnType : Type :=
| col_date | col_name | col_field | col_group | col_description
| col_value | col_tags | col_type | col_metadata.

Definition ColumnType_name (c : ColumnType) : string :=
  match c with
  | col_date => "date" | col_name => "name" | col_field => "field"
  | col_group => "group" | col_description => "description"
  | col_value => "value" | col_tags => "tags" | col_type => "type"
  | col_metadata => "metadata"
  end.

Definition Row : Type := list string.
Definition Rows : Type := list Row.

(** [enum ExportMode] *)
Inductive ExportMode : Type :=
| ALL_IN_ONE_COLUMN
| EACH_IN_OWN_COLUMN.

(** Values of a metadata map ([Map<string, any>]); the reporter reads
    only the keys. *)
Inductive any : Type :=
| AnyString (s : string)
| AnyNumber (n : number)
| AnyBool (b : bool).

(** What the reporter reads of an instrument: its [id] property
    ([undefined] when absent), its tags, its metadata map, and the
    reading of [getCount()] (counters, histograms, meters, timers) or
    [getValue()] (gauges). *)
Record Metric : Type := mkMetric {
  id : option Z;
  getTags : gmap string string;
  getMetadataMap : gmap string any;
  getCount : number;
  getValue : number
}.

(** The typed listings of a [MetricRegistry]. *)
Record MetricRegistry : Type := mkMetricRegistry {
  getMonotoneCounterList : list Metric;
  getCounterList : list Metric;
  getGaugeList : list Metric;
  getHistogramList : list Metric;
  getMeterList : list Metric;
  getTimerList : list Metric
}.

(** [registry.getMetricList()]: every registered instrument, here in
    the order of the typed listings. *)
Definition getMetricList (registry : MetricRegistry) : list Metric :=
  getMonotoneCounterList registry ++ getCounterList registry ++
  getGaugeList registry ++ getHistogramList registry ++
  getMeterList registry ++ getTimerList registry.

(** A [TimeUnit], through the one call the reporter makes on it:
    [unit.convertTo(value, MILLISECOND)]. *)
Record TimeUnit : Type := mkTimeUnit {
  convertTo_MILLISECOND : Z -> Z
}.

(** [class CsvMetricReporterOptions].  [filename] and [dir] are the
    values their callbacks resolve to; [tagFilter] and [metadataFilter]
    are given by the answer their promise resolves to on the name, the
    only argument that is not [null] where this file calls them.  A
    callback whose promise is rejected or never settles is outside the
    model. *)
Record CsvMetricReporterOptions : Type := mkOptions {
  interval : Z;
  unit : TimeUnit;
  writeHeaders : bool;
  useSingleQuotes : bool;
  tagExportMode : ExportMode;
  metadataExportMode : ExportMode;
  delimiter : string;
  tagColumnPrefix : string;
  metadataColumnPrefix : string;
  columns : list ColumnType;
  encoding : string;
  filename : string;
  dir : string;
  tagFilter : option (string -> bool);
  metadataFilter : option (string -> bool)
}.

(** A [Clock]: the milliseconds returned by the n-th call of [time()]. *)
Definition Clock : Type := nat -> Z.

(** [class CsvMetricReporter]; [metricRegistries] is inherited from
    [MetricReporter].  [timer] is the handle returned by the scheduler. *)
Record CsvMetricReporter : Type := mkReporter {
  metricRegistries : list MetricRegistry;
  options : CsvMetricReporterOptions;
  tags : option (gmap string string);
  clock : Clock;
  minReportingTimeout : Z;
  timer : option nat;
  metricStates : gmap Z MetricEntry;
  header : option Row
}.

Definition set_tags (t : option (gmap string string)) (r : CsvMetricReporter) :=
  mkReporter (metricRegistries r) (options r) t (clock r)
    (minReportingTimeout r) (timer r) (metricStates r) (header r).

Definition set_timer (t : option nat) (r : CsvMetricReporter) :=
  mkReporter (metricRegistries r) (options r) (tags r) (clock r)
    (minReportingTimeout r) t (metricStates r) (header r).

Definition set_metricStates (m : gmap Z MetricEntry) (r : CsvMetricReporter) :=
  mkReporter (metricRegistries r) (options r) (tags r) (clock r)
    (minReportingTimeout r) (timer r) m (header r).

Definition set_header (h : option Row) (r : CsvMetricReporter) :=
  mkReporter (metricRegistries r) (options r) (tags r) (clock r)
    (minReportingTimeout r) (timer r) (metricStates r) h.

(** [MetricReporter.addMetricRegistry] *)
Definition addMetricRegistry (registry : MetricRegistry) (r : CsvMetricReporter) :=
  mkReporter (metricRegistries r ++ [registry]) (options r) (tags r) (clock r)
    (minReportingTimeout r) (timer r) (metricStates r) (header r).

(** The default of the constructor's [minReportingTimeout], documented
    as a "timeout in minutes". *)
Definition default_minReportingTimeout : Z := 1.

(** The constructor.  Its [tags] argument is not stored: the assignment
    [this.tags = tags] is commented out in the source.  The scheduler it
    is given is the one of [World] below. *)
Definition constructor (options : CsvMetricReporterOptions)
    (tags : gmap string string) (clock : Clock)
    (minReportingTimeout : Z) : CsvMetricReporter :=
  mkReporter [] options None clock minReportingTimeout None ∅ None.

(** [getTags()] of the reporter ([getTags] alone is the instrument's). *)
Definition getTags_reporter (r : CsvMetricReporter) : option (gmap string string) :=
  tags r.

(** [setTags(tags)] *)
Definition setTags (t : gmap string string) (r : CsvMetricReporter) : CsvMetricReporter :=
  set_tags (Some t) r.

(** [hasChanged(metricId, lastValue, date)]: the answer and the reporter
    with its [metricStates] updated.  The parameter [lastValue] of the
    source is [currentValue] here, [lastValue] being the field.  The
    entry found in the map is the stored object itself: writing
    [lastReport] on it and setting it back under the same key is one map
    update. *)
Definition hasChanged (metricId : Z) (currentValue : number) (date : Date)
    (r : CsvMetricReporter) : bool * CsvMetricReporter :=
  let '(changed, metricEntry) :=
    match metricStates r !! metricId with
    | Some stored =>
        let changed := strict_neq (lastValue stored) currentValue in
        let changed :=
          if negb changed
          then (lastReport stored + minReportingTimeout r <? getTime date)%Z
          else changed in
        (changed, stored)
    | None => (true, mkMetricEntry 0 currentValue)
    end in
  let metricEntry :=
    if changed then mkMetricEntry (getTime date) (lastValue metricEntry)
    else metricEntry in
  (changed, set_metricStates (<[metricId := metricEntry]> (metricStates r)) r).

(** [map.forEach((value, key) => ...)] threading the state the callback
    mutates. *)
Definition forEach {V S : Type} (m : gmap string V)
    (callback : V -> string -> S -> S) (s : S) : S :=
  map_fold (fun key value acc => callback value key acc) s m.

(** [obj[key] = value] on a plain object created by [{}], seen through
    its own properties.  The key ["__proto__"] is the accessor the object
    inherits from [Object.prototype]: assigning a string to it creates no
    own property and changes nothing.  Every other key becomes an own
    property. *)
Definition Object_set (key value : string) (obj : gmap string string)
    : gmap string string :=
  if decide (key = "__proto__") then obj else <[key := value]> obj.

(** [buildTags(taggable)]: the own properties of the object it returns.
    [this.tags.forEach] faults when [this.tags] is [undefined]. *)
Definition buildTags (taggable : Metric) (r : CsvMetricReporter)
    : result (gmap string string) :=
  match tags r with
  | None =>
      Throw (TypeError "Cannot read property 'forEach' of undefined")
  | Some reporterTags =>
      let tags : gmap string string := ∅ in
      let tags := forEach reporterTags (fun tag key acc => Object_set key tag acc) tags in
      let tags := forEach (getTags taggable) (fun tag key acc => Object_set key tag acc) tags in
      Return tags
  end.

(** [Set.add]: a set that keeps insertion order. *)
Definition Set_add (x : string) (s : list string) : list string :=
  if decide (x ∈ s) then s else s ++ [x].

Definition keys {V : Type} (m : gmap string V) : list string :=
  fst <$> map_to_list m.

(** [metrics.map((metric) => this.buildTags(metric))] *)
Fixpoint map_buildTags (metrics : list Metric) (r : CsvMetricReporter)
    : result (list (gmap string string)) :=
  match metrics with
  | [] => Return []
  | metric :: rest =>
      t ← buildTags metric r;
      ts ← map_buildTags rest r;
      Return (t :: ts)
  end.

Fixpoint map_registries_buildTags (registries : list MetricRegistry)
    (r : CsvMetricReporter) : result (list (list (gmap string string))) :=
  match registries with
  | [] => Return []
  | registry :: rest =>
      t ← map_buildTags (getMetricList registry) r;
      ts ← map_registries_buildTags rest r;
      Return (t :: ts)
  end.

Definition passes (filter : option (string -> bool)) (name : string) : bool :=
  match filter with
  | None => true
  | Some f => f name
  end.

(** The header cells one column type contributes in [buildHeaders].
    Which cells there are is modelled; within the cells of the tags and
    of the metadata their order, which in the source is the insertion
    order of the maps and the registration order of the instruments, is
    not. *)
Definition buildHeaders_column (columnType : ColumnType) (r : CsvMetricReporter)
    : result Row :=
  let o := options r in
  match columnType with
  | col_metadata =>
      match metadataExportMode o with
      | ALL_IN_ONE_COLUMN => Return [ColumnType_name columnType]
      | EACH_IN_OWN_COLUMN =>
          let metadataNames :=
            foldl (fun names metadataMapArray =>
                     foldl (fun names metadataMap =>
                              foldl (fun names metadataName => Set_add metadataName names)
                                    names (keys metadataMap))
                           names metadataMapArray)
                  []
                  (map (fun registry => map getMetadataMap (getMetricList registry))
                       (metricRegistries r)) in
          Return (map (fun metadataName => metadataColumnPrefix o +:+ metadataName)
                      (filter (fun n => passes (metadataFilter o) n = true) metadataNames))
      end
  | col_tags =>
      match tagExportMode o with
      | ALL_IN_ONE_COLUMN => Return [ColumnType_name columnType]
      | EACH_IN_OWN_COLUMN =>
          match tags r with
          | None =>
              Throw (TypeError "Cannot read property 'forEach' of undefined")
          | Some reporterTags =>
              let tagSet := forEach reporterTags (fun value tag acc => Set_add tag acc) [] in
              metricTagsArrays ← map_registries_buildTags (metricRegistries r) r;
              let tagSet :=
                foldl (fun acc metricTagsArray =>
                         foldl (fun acc metricTags =>
                                  foldl (fun acc tag => Set_add tag acc) acc (keys metricTags))
                               acc metricTagsArray)
                      tagSet metricTagsArrays in
              Return (map (fun tag => tagColumnPrefix o +:+ tag)
                          (filter (fun t => passes (tagFilter o) t = true) tagSet))
          end
      end
  | _ => Return [ColumnType_name columnType]
  end.

(** [buildHeaders()] *)
Fixpoint buildHeaders_from (cols : list ColumnType) (headers : Row)
    (r : CsvMetricReporter) : result Row :=
  match cols with
  | [] => Return headers
  | columnType :: rest =>
      cells ← buildHeaders_column columnType r;
      buildHeaders_from rest (headers ++ cells) r
  end.

Definition buildHeaders (r : CsvMetricReporter) : result Row :=
  buildHeaders_from (columns (options r)) [] r.

(** What a run does, in order: the calls on the writer, and for each
    metric of a tick the date it was evaluated with and the decision
    taken ([Evaluated] is an observation of the run, the source has no
    such call). *)
Inductive Event : Type :=
| WriterInit (dir file : string) (header : option Row)
| WriteRow (metric : Metric) (row : Row)
| Evaluated (metric : Metric) (date : Date) (changed : bool).

(** A timer armed by the scheduler ([setInterval], the default): its
    period and whether it still holds the event loop open. *)
Record Timer : Type := mkTimer {
  timer_interval : Z;
  timer_hasRef : bool
}.

(** The environment of a reporter: how often the clock was read, the
    armed timers (a handle is an index in this list), and the log of
    events. *)
Record World : Type := mkWorld {
  clockCalls : nat;
  timers : list Timer;
  trace : list Event
}.

Definition log (e : Event) (w : World) : World :=
  mkWorld (clockCalls w) (timers w) (trace w ++ [e]).

(** [this.scheduler(() => this.report(), interval)]: arms a recurring
    timer whose callback is [report] and returns its handle. *)
Definition scheduler (interval : Z) (w : World) : nat * World :=
  (length (timers w),
   mkWorld (clockCalls w) (timers w ++ [mkTimer interval true]) (trace w)).

(** [timer.unref()]: the timer stays armed; it only stops holding the
    event loop open. *)
Definition unref (handle : nat) (w : World) : World :=
  mkWorld (clockCalls w)
          (alter (fun t => mkTimer (timer_interval t) false) handle (timers w))
          (trace w).

(** [this.clock.time().milliseconds] *)
Definition clock_time (r : CsvMetricReporter) (w : World) : Z * World :=
  (clock r (clockCalls w), mkWorld (S (clockCalls w)) (timers w) (trace w)).

(** [this.metricRegistries && this.metricRegistries.length > 0] *)
Definition has_registries (r : CsvMetricReporter) : bool :=
  (0 <? length (metricRegistries r))%nat.

(** [start()] *)
Definition start (r : CsvMetricReporter) (w : World)
    : result (CsvMetricReporter * World) :=
  let interval := convertTo_MILLISECOND (unit (options r)) (interval (options r)) in
  r ← (if has_registries r
       then (h ← buildHeaders r; Return (set_header (Some h) r))
       else Return r);
  let '(handle, w) := scheduler interval w in
  Return (set_timer (Some handle) r, w).

(** [stop()] *)
Definition stop (r : CsvMetricReporter) (w : World) : CsvMetricReporter * World :=
  match timer r with
  | Some handle => (r, unref handle w)
  | None => (r, w)
  end.

(** The five formatting functions are stubs in the source ([// TODO]). *)
Definition reportCounter (metric : Metric) (date : Date) : Rows := [].
Definition reportGauge (metric : Metric) (date : Date) : Rows := [].
Definition reportHistogram (metric : Metric) (date : Date) : Rows := [].
Definition reportMeter (metric : Metric) (date : Date) : Rows := [].
Definition reportTimer (metric : Metric) (date : Date) : Rows := [].

(** [writeRows(metric, rows, type)] *)
Definition writeRows (metric : Metric) (rows : Rows) (type : MetricType)
    (w : World) : World :=
  foldl (fun w row => log (WriteRow metric row) w) w rows.

(** A number used as a condition: [if (metricId)]. *)
Definition truthy (metricId : option Z) : bool :=
  match metricId with
  | Some z => negb (z =? 0)%Z
  | None => false
  end.

(** The body of the [forEach] in [reportMetrics], for one metric. *)
Definition reportMetric (date : Date) (type : MetricType)
    (reportFunction : Metric -> Date -> Rows)
    (lastModifiedFunction : Metric -> number)
    (st : CsvMetricReporter * World) (metric : Metric)
    : CsvMetricReporter * World :=
  let '(r, w) := st in
  let metricId := id metric in
  let '(changed, r) :=
    match metricId with
    | Some n =>
        if truthy metricId
        then hasChanged n (lastModifiedFunction metric) date r
        else (true, r)
    | None => (true, r)
    end in
  let w := log (Evaluated metric date changed) w in
  if changed then
    let rows := reportFunction metric date in
    if (0 <? length rows)%nat
    then (r, writeRows metric rows type w)
    else (r, w)
  else (r, w).

(** [reportMetrics(metrics, date, type, reportFunction, lastModifiedFunction)] *)
Definition reportMetrics (metrics : list Metric) (date : Date) (type : MetricType)
    (reportFunction : Metric -> Date -> Rows)
    (lastModifiedFunction : Metric -> number)
    (st : CsvMetricReporter * World) : CsvMetricReporter * World :=
  foldl (reportMetric date type reportFunction lastModifiedFunction) st metrics.

(** [reportMetricRegistry(registry)] *)
Definition reportMetricRegistry (registry : MetricRegistry)
    (st : CsvMetricReporter * World) : CsvMetricReporter * World :=
  let '(r, w) := st in
  let '(milliseconds, w) := clock_time r w in
  let now := mkDate milliseconds in
  let st := (r, w) in
  let st := reportMetrics (getMonotoneCounterList registry) now counter
              reportCounter getCount st in
  let st := reportMetrics (getCounterList registry) now counter
              reportCounter getCount st in
  let st := reportMetrics (getGaugeList registry) now gauge
              reportGauge getValue st in
  let st := reportMetrics (getHistogramList registry) now histogram
              reportHistogram getCount st in
  let st := reportMetrics (getMeterList registry) now meter
              reportMeter getCount st in
  reportMetrics (getTimerList registry) now timer_type
    reportTimer getCount st.

(** [report()], one tick. *)
Definition report (r : CsvMetricReporter) (w : World) : CsvMetricReporter * World :=
  if has_registries r then
    let w := log (WriterInit (dir (options r)) (filename (options r)) (header r)) w in
    foldl (fun st registry => reportMetricRegistry registry st)
          (r, w) (metricRegistries r)
  else (r, w).

End Csv.

(** ** The logger reporter's formatting functions *)

Module Logger.
Import Js.

(** The statistics the formatting functions read of a [Snapshot]. *)
Record Snapshot : Type := mkSnapshot {
  getMax : number;
  getMean : number;
  getMin : number;
  getMedian : number;
  get75thPercentile : number;
  get95thPercentile : number;
  get98thPercentile : number;
  get99thPercentile : number;
  get999thPercentile : number;
  getStdDev : number
}.

(** What the formatting functions read of an instrument
    ([MonotoneCounter | Counter], [Gauge], [Histogram], [Meter], [Timer]). *)
Record Metric : Type := mkMetric {
  getName : string;
  getGroup : string;
  getCount : number;
  getValue : number;
  getSnapshot : Snapshot;
  get15MinuteRate : number;
  get5MinuteRate : number;
  get1MinuteRate : number;
  getMeanRate : number
}.

Definition nl : string := String (Ascii.ascii_of_nat 10) EmptyString.
Definition tab : string := String (Ascii.ascii_of_nat 9) EmptyString.

(** What separates two fields of a multi-line message: the indentation
    kept by the line continuation, then a line feed and a tab. *)
Definition field_sep : string :=
  "                            " +:+ nl +:+ tab.

Section LoggerReporter.

(** Types and functions of the base class and its modules, used here
    and defined elsewhere. *)
Context {TimeUnit MetricRegistry MetricType : Type}.
Variable buildTags : MetricRegistry -> Metric -> result (gmap string string).
Variable getNumber : number -> number.
Variable dateToString : Date -> string.
Variable numberToString : number -> string.

(** The metadata object handed to the logger: the reporter's
    [logMetadata] extended in [createReportingContext] and by the
    formatting functions. *)
Record LogMetadata : Type := mkLogMetadata {
  reportInterval : Z;
  tags : gmap string string;
  unit : TimeUnit;
  measurement : string;
  measurement_type : option MetricType;
  timestamp : option Date;
  group : option string
}.

Record LogLine : Type := mkLogLine {
  message : string;
  metadata : LogMetadata
}.

(** [interface LoggerReportingContext] *)
Record LoggerReportingContext : Type := mkContext {
  date : Date;
  logMetadata : LogMetadata;
  metrics : list Metric;
  registry : MetricRegistry;
  type : MetricType
}.

(** [createReportingContext(registry, date, type)] given the
    reporter's [logMetadata] *)
Definition createReportingContext (this_logMetadata : LogMetadata)
    (registry : MetricRegistry) (date : Date) (type : MetricType)
    : LoggerReportingContext :=
  let logMetadata :=
    mkLogMetadata (reportInterval this_logMetadata) (tags this_logMetadata)
      (unit this_logMetadata) "" (Some type) (Some date)
      (group this_logMetadata) in
  mkContext date logMetadata [] registry type.

(** The three assignments on [ctx.logMetadata] shared by the five
    functions.  The context is one object shared by every instrument of
    a batch: what was assigned before [buildTags] raises stays
    assigned. *)
Definition set_measurement (metric : Metric) (ctx : LoggerReportingContext)
    : result () * LoggerReportingContext :=
  let name := getName metric in
  let md := logMetadata ctx in
  let md := mkLogMetadata (reportInterval md) (tags md) (unit md) name
              (measurement_type md) (timestamp md) (Some (getGroup metric)) in
  match buildTags (registry ctx) metric with
  | Return builtTags =>
      (Return (),
       mkContext (date ctx)
         (mkLogMetadata (reportInterval md) builtTags (unit md) (measurement md)
            (measurement_type md) (timestamp md) (group md))
         (metrics ctx) (registry ctx) (type ctx))
  | Throw e =>
      (Throw e, mkContext (date ctx) md (metrics ctx) (registry ctx) (type ctx))
  end.

(** [return { message, metadata: Object.assign({}, ctx.logMetadata) }]
    after the assignments. *)
Definition log_line (metric : Metric) (ctx : LoggerReportingContext)
    (message : LoggerReportingContext -> string)
    : result (option LogLine) * LoggerReportingContext :=
  match set_measurement metric ctx with
  | (Return _, ctx) => (Return (Some (mkLogLine (message ctx) (logMetadata ctx))), ctx)
  | (Throw e, ctx) => (Throw e, ctx)
  end.

Definition snapshot_fields (snapshot : Snapshot) : string :=
  field_sep +:+ "max: " +:+ numberToString (getNumber (getMax snapshot)) +:+
  field_sep +:+ "mean: " +:+ numberToString (getNumber (getMean snapshot)) +:+
  field_sep +:+ "min: " +:+ numberToString (getNumber (getMin snapshot)) +:+
  field_sep +:+ "p50: " +:+ numberToString (getNumber (getMedian snapshot)) +:+
  field_sep +:+ "p75: " +:+ numberToString (getNumber (get75thPercentile snapshot)) +:+
  field_sep +:+ "p95: " +:+ numberToString (getNumber (get95thPercentile snapshot)) +:+
  field_sep +:+ "p98: " +:+ numberToString (getNumber (get98thPercentile snapshot)) +:+
  field_sep +:+ "p99: " +:+ numberToString (getNumber (get99thPercentile snapshot)) +:+
  field_sep +:+ "p999: " +:+ numberToString (getNumber (get999thPercentile snapshot)) +:+
  field_sep +:+ "stddev: " +:+ numberToString (getNumber (getStdDev snapshot)).

Definition rate_fields (m : Metric) : string :=
  field_sep +:+ "m15_rate: " +:+ numberToString (getNumber (get15MinuteRate m)) +:+
  field_sep +:+ "m5_rate: " +:+ numberToString (getNumber (get5MinuteRate m)) +:+
  field_sep +:+ "m1_rate: " +:+ numberToString (getNumber (get1MinuteRate m)) +:+
  field_sep +:+ "mean_rate: " +:+ numberToString (getNumber (getMeanRate m)).

(** [reportCounter(counter, ctx)]: the log line or [null], or the error
    raised, and the context after the assignments on its [logMetadata]. *)
Definition reportCounter (counter : Metric) (ctx : LoggerReportingContext)
    : result (option LogLine) * LoggerReportingContext :=
  if negb (isNaN (getCount counter)) then
    log_line counter ctx (fun ctx =>
      dateToString (date ctx) +:+ " - counter " +:+ getName counter
        +:+ ": " +:+ numberToString (getCount counter))
  else (Return None, ctx).

(** [reportGauge(gauge, ctx)] *)
Definition reportGauge (gauge : Metric) (ctx : LoggerReportingContext)
    : result (option LogLine) * LoggerReportingContext :=
  if negb (isNaN (getValue gauge)) then
    log_line gauge ctx (fun ctx =>
      dateToString (date ctx) +:+ " - gauge " +:+ getName gauge
        +:+ ": " +:+ numberToString (getValue gauge))
  else (Return None, ctx).

(** [reportHistogram(histogram, ctx)] *)
Definition reportHistogram (histogram : Metric) (ctx : LoggerReportingContext)
    : result (option LogLine) * LoggerReportingContext :=
  if negb (isNaN (getCount histogram)) then
    let snapshot := getSnapshot histogram in
    log_line histogram ctx (fun ctx =>
      dateToString (date ctx) +:+ " - histogram " +:+ getName histogram
        +:+ field_sep +:+ "count: " +:+ numberToString (getCount histogram)
        +:+ snapshot_fields snapshot)
  else (Return None, ctx).

(** [reportMeter(meter, ctx)] *)
Definition reportMeter (meter : Metric) (ctx : LoggerReportingContext)
    : result (option LogLine) * LoggerReportingContext :=
  if negb (isNaN (getCount meter)) then
    log_line meter ctx (fun ctx =>
      dateToString (date ctx) +:+ " - meter " +:+ getName meter
        +:+ field_sep +:+ "count: " +:+ numberToString (getCount meter)
        +:+ rate_fields meter)
  else (Return None, ctx).

(** [reportTimer(timer, ctx)] *)
Definition reportTimer (timer : Metric) (ctx : LoggerReportingContext)
    : result (option LogLine) * LoggerReportingContext :=
  if negb (isNaN (getCount timer)) then
    let snapshot := getSnapshot timer in
    log_line timer ctx (fun ctx =>
      dateToString (date ctx) +:+ " - timer " +:+ getName timer
        +:+ field_sep +:+ "count: " +:+ numberToString (getCount timer)
        +:+ rate_fields timer
        +:+ snapshot_fields snapshot)
  else (Return None, ctx).

(** Modelled from the spec: the tick of the base class
    [ScheduledMetricReporter], which is not part of these sources
    (section 4.5, steps 3 and 4): each instrument of a batch is
    formatted, an instrument whose formatting yields no result is
    skipped, a formatting failure is isolated to its instrument, and
    the formatted batch goes to the result handler. *)
Fixpoint formatBatch
    (reportFunction : Metric -> LoggerReportingContext
                      -> result (option LogLine) * LoggerReportingContext)
    (batch : list Metric) (ctx : LoggerReportingContext)
    : list (Metric * LogLine) :=
  match batch with
  | [] => []
  | metric :: rest =>
      match reportFunction metric ctx with
      | (Return (Some line), ctx) => (metric, line) :: formatBatch reportFunction rest ctx
      | (Return None, ctx) => formatBatch reportFunction rest ctx
      | (Throw _, ctx) => formatBatch reportFunction rest ctx
      end
  end.

End LoggerReporter.

End Logger.

(** ** The interprocess report message *)

Module Interprocess.
Import Js.

Section InterprocessReportMessage.

(** Types imported by the source file: [OverallReportContext], [Tags],
    and [Result] for [ReportingResult<SerializableMetric, T>]. *)
Context {OverallReportContext Tags Result : Type}.

(** The type of the [metrics] property. *)
Record Metrics : Type := mkMetrics {
  counters : list Result;
  gauges : list Result;
  histograms : list Result;
  meters : list Result;
  monotoneCounters : list Result;
  timers : list Result
}.

(** [interface InterprocessReportMessage<T>] *)
Record InterprocessReportMessage : Type := mkMessage {
  ctx : OverallReportContext;
  date : Date;
  tags : Tags;
  metrics : Metrics;
  targetReporterType : string;
  type : string
}.

(** Modelled from the spec: a value sent between processes, which these
    sources do not define: the kinds of values a report message holds
    (section 6), an object being its properties, in order. *)
#[warnings="-register-all"]
Inductive Value : Type :=
| VCtx (c : OverallReportContext)
| VDate (d : Date)
| VTags (t : Tags)
| VResults (l : list Result)
| VString (s : string)
| VObject (properties : list (string * Value)).

(** [object[key]] on such an object. *)
Definition property (key : string) (properties : list (string * Value))
    : option Value :=
  snd <$> find (fun kv => String.eqb (fst kv) key) properties.

(** Modelled from the spec: the [metrics] object of a message that is
    sent (section 6: [{ counters, gauges, histograms, meters,
    monotoneCounters, timers }]); the code that builds and sends a
    message is not part of these sources. *)
Definition Metrics_toObject (m : Metrics) : list (string * Value) :=
  [ ("counters", VResults (counters m));
    ("gauges", VResults (gauges m));
    ("histograms", VResults (histograms m));
    ("meters", VResults (meters m));
    ("monotoneCounters", VResults (monotoneCounters m));
    ("timers", VResults (timers m)) ].

(** Modelled from the spec: a message as the object that is sent
    (section 6: [{ ctx, date, tags, metrics, targetReporterType,
    type }]); the code that builds and sends it is not part of these
    sources. *)
Definition toObject (m : InterprocessReportMessage) : list (string * Value) :=
  [ ("ctx", VCtx (ctx m));
    ("date", VDate (date m));
    ("tags", VTags (tags m));
    ("metrics", VObject (Metrics_toObject (metrics m)));
    ("targetReporterType", VString (targetReporterType m));
    ("type", VString (type m)) ].

(** Modelled from the spec: reading a list of results off an object that
    was received. *)
Definition results_property (key : string) (properties : list (string * Value))
    : option (list Result) :=
  match property key properties with
  | Some (VResults l) => Some l
  | _ => None
  end.

(** Modelled from the spec: reading a received [metrics] object; each of
    the six lists has to be there. *)
Definition Metrics_fromObject (properties : list (string * Value)) : option Metrics :=
  c ← results_property "counters" properties;
  g ← results_property "gauges" properties;
  h ← results_property "histograms" properties;
  m ← results_property "meters" properties;
  mc ← results_property "monotoneCounters" properties;
  t ← results_property "timers" properties;
  Some (mkMetrics c g h m mc t).

(** Modelled from the spec: reading a received object as a message; each
    of the six properties has to be there, with a value of its kind. *)
Definition fromObject (properties : list (string * Value))
    : option InterprocessReportMessage :=
  match property "ctx" properties, property "date" properties,
        property "tags" properties, property "metrics" properties,
        property "targetReporterType" properties, property "type" properties with
  | Some (VCtx c), Some (VDate d), Some (VTags t), Some (VObject ms),
    Some (VString trt), Some (VString ty) =>
      ms ← Metrics_fromObject ms;
      Some (mkMessage c d t ms trt ty)
  | _, _, _, _, _, _ => None
  end.

(** Modelled from the spec: the consumer of inter-process traffic,
    which is not part of these sources (section 6): a message whose
    [type] is not the report message type is ignored. *)
Definition consume (reportMessageType : string) (properties : list (string * Value))
    : option InterprocessReportMessage :=
  match property "type" properties with
  | Some (VString ty) =>
      if String.eqb ty reportMessageType then fromObject properties else None
  | _ => None
  end.

End InterprocessReportMessage.

End Interprocess.

(** ** The InfluxDB sender *)

Module Influx.
Import Js.

(** [IClusterConfig], through the property the sender reads. *)
Record IClusterConfig : Type := mkConfig {
  database : string
}.

(** What the promise of [db.getDatabaseNames()] is fulfilled with, as far
    as [init] tells values apart: a [String] object, an array of
    strings, or anything else. *)
Inductive DatabaseNames : Type :=
| StringObject (s : string)
| ArrayOf (names : list string)
| OtherValue.

Inductive Request : Type :=
| GetDatabaseNames
| CreateDatabase (name : string).

(** The [InfluxDB] client with the server behind it: how the two calls
    of [init] settle, and the requests made so far. *)
Record InfluxDB : Type := mkInfluxDB {
  getDatabaseNames_settles : result DatabaseNames;
  createDatabase_settles : string -> result ();
  requests : list Request
}.

Definition request (q : Request) (db : InfluxDB) : InfluxDB :=
  mkInfluxDB (getDatabaseNames_settles db) (createDatabase_settles db)
             (requests db ++ [q]).

(** [class DefaultSender] *)
Record DefaultSender : Type := mkSender {
  db : InfluxDB;
  config : IClusterConfig;
  ready : bool
}.

Definition constructor (config : IClusterConfig) (db : InfluxDB) : DefaultSender :=
  mkSender db config false.

(** [array.find(predicate)] *)
Definition Array_find (predicate : string -> bool) (arr : list string) : option string :=
  find predicate arr.

(** [!x] where [x] is a string or [undefined]: only the empty string and
    [undefined] are falsy. *)
Definition not_value (x : option string) : bool :=
  match x with
  | None => true
  | Some s => String.eqb s ""
  end.

Section Init.

(** [a.localeCompare(b)]: the comparison of the runtime's collation,
    which is not code-unit equality (it returns 0 for some pairs of
    distinct strings).  It is left open here; where a property needs
    more than that, it says what it assumes of it. *)
Variable localeCompare : string -> string -> Z.

(** The condition of the first [then] callback of [init]. *)
Definition must_create (database : string) (result : DatabaseNames) : bool :=
  match result with
  | StringObject s => negb (localeCompare s database =? 0)%Z
  | ArrayOf arr =>
      not_value (Array_find (fun value => (localeCompare value database =? 0)%Z) arr)
  | OtherValue => false
  end.

(** Where the promise returned by [init()] stands. *)
Inductive InitPromise : Type :=
| AwaitingDatabaseNames
| AwaitingCreateDatabase
| Fulfilled
| Rejected (e : Error).

(** [init()] up to its first pending promise. *)
Definition init_call (s : DefaultSender) : DefaultSender * InitPromise :=
  (mkSender (request GetDatabaseNames (db s)) (config s) (ready s),
   AwaitingDatabaseNames).

(** The second [then] callback: [this.ready = true]. *)
Definition set_ready (s : DefaultSender) : DefaultSender :=
  mkSender (db s) (config s) true.

(** One settlement of the pending promise and the callbacks it runs. *)
Definition init_step (st : DefaultSender * InitPromise) : DefaultSender * InitPromise :=
  let '(s, p) := st in
  let database := database (config s) in
  match p with
  | AwaitingDatabaseNames =>
      match getDatabaseNames_settles (db s) with
      | Return result =>
          if must_create database result
          then (mkSender (request (CreateDatabase database) (db s)) (config s) (ready s),
                AwaitingCreateDatabase)
          else (set_ready s, Fulfilled)
      | Throw e => (s, Rejected e)
      end
  | AwaitingCreateDatabase =>
      match createDatabase_settles (db s) database with
      | Return _ => (set_ready s, Fulfilled)
      | Throw e => (s, Rejected e)
      end
  | Fulfilled => st
  | Rejected _ => st
  end.

(** [init()] run until its promise is settled. *)
Definition init (s : DefaultSender) : DefaultSender * InitPromise :=
  init_step (init_step (init_call s)).

End Init.

(** [isReady()] *)
Definition isReady (s : DefaultSender) : bool := ready s.

End Influx.

(** ** The logger reporter: handing results to the logger *)

Module LoggerHandle.
Import Js Logger.

Section HandleResults.

Context {TimeUnit MetricType ReportingResult : Type}.

(** The [result] property of a [ReportingResult<any, LogLine>]. *)
Variable result_of : ReportingResult -> @LogLine TimeUnit MetricType.

(** A call [log.info(message, metadata)]. *)
Record InfoCall : Type := mkInfoCall {
  info_message : string;
  info_metadata : @LogMetadata TimeUnit MetricType
}.

(** [handleResults(registry, date, type, results)]: the calls made on the
    logger, after those made before; the promise it returns is resolved. *)
Definition handleResults (results : list ReportingResult) (log : list InfoCall)
    : result () * list InfoCall :=
  (Return (),
   foldl (fun log logLine =>
            log ++ [mkInfoCall (message (result_of logLine))
                               (metadata (result_of logLine))])
         log results).

End HandleResults.

End LoggerHandle.

(** ** The InfluxDB sender for buckets *)

Module InfluxBucket.
Import Js.

(** [WritePrecisionType] *)
Inductive WritePrecisionType : Type :=
| precision_ns | precision_us | precision_ms | precision_s.

(** An [Organization] and a [Bucket] of the client library, through what
    [init] reads of them: the [id] of an organization, and whether a
    bucket is there at all. *)
Record Organization : Type := mkOrganization {
  org_id : option string
}.

Record Bucket : Type := mkBucket {
  bucket_name : string
}.

Section Sender.

(** [RetentionRules] and [Point] are handed through to the client. *)
Context {RetentionRules Point : Type}.

Inductive Request : Type :=
| GetOrgs (org : string)
| GetBuckets (orgID : option string) (name : string)
| PostBuckets (retentionRules : option RetentionRules) (orgID : option string)
              (name : string)
| WritePoints (org bucket : string) (precision : WritePrecisionType)
              (points : list Point).

(** The [InfluxDB] client with the server behind it: what the promises of
    the three API calls are settled with (the [orgs] and [buckets]
    properties of the answers may be [undefined]), what [writePoints]
    does, and the requests made so far. *)
Record InfluxDB : Type := mkInfluxDB {
  getOrgs_settles : string -> result (option (list Organization));
  getBuckets_settles : option string -> string -> result (option (list Bucket));
  postBuckets_settles : option RetentionRules -> option string -> string -> result ();
  writePoints_returns : list Point -> result ();
  requests : list Request
}.

Definition request (q : Request) (db : InfluxDB) : InfluxDB :=
  mkInfluxDB (getOrgs_settles db) (getBuckets_settles db) (postBuckets_settles db)
             (writePoints_returns db) (requests db ++ [q]).

(** [class DefaultSender] *)
Record DefaultSender : Type := mkSender {
  db : InfluxDB;
  bucket : string;
  org : string;
  retentionRules : option RetentionRules;
  ready : bool;
  precision : WritePrecisionType
}.

(** The constructor with its [precision] given, and with the default. *)
Definition constructor (db : InfluxDB) (org bucket : string)
    (retentionRules : option RetentionRules) (precision : WritePrecisionType)
    : DefaultSender :=
  mkSender db bucket org retentionRules false precision.

Definition constructor_default (db : InfluxDB) (org bucket : string)
    (retentionRules : option RetentionRules) : DefaultSender :=
  constructor db org bucket retentionRules precision_s.

Definition with_db (d : InfluxDB) (s : DefaultSender) : DefaultSender :=
  mkSender d (bucket s) (org s) (retentionRules s) (ready s) (precision s).

(** The destructuring [const { xs: [x] } = answer]: a fault when [xs] is
    [undefined], otherwise the first element or [undefined]. *)
Definition first_of {A : Type} (xs : option (list A)) : result (option A) :=
  match xs with
  | None => Throw (TypeError "undefined is not iterable")
  | Some l => Return (head l)
  end.

(** [org.id], a fault when [org] is [undefined]. *)
Definition id_of (org : option Organization) : result (option string) :=
  match org with
  | None => Throw (TypeError "Cannot read property 'id' of undefined")
  | Some o => Return (org_id o)
  end.

(** Where the promise returned by [init()] stands; the [id] read from the
    organization is kept for the later request. *)
Inductive InitPromise : Type :=
| AwaitingOrgs
| AwaitingBuckets (orgID : option string)
| AwaitingPostBuckets (orgID : option string)
| Fulfilled
| Rejected (e : Error).

(** [init()] up to its first [await]. *)
Definition init_call (s : DefaultSender) : DefaultSender * InitPromise :=
  (with_db (request (GetOrgs (org s)) (db s)) s, AwaitingOrgs).

(** [this.ready = true] *)
Definition set_ready (s : DefaultSender) : DefaultSender :=
  mkSender (db s) (bucket s) (org s) (retentionRules s) true (precision s).

(** One settlement of the awaited promise and the code that runs up to
    the next [await] or to the end. *)
Definition init_step (st : DefaultSender * InitPromise) : DefaultSender * InitPromise :=
  let '(s, p) := st in
  match p with
  | AwaitingOrgs =>
      match getOrgs_settles (db s) (org s) with
      | Return orgs =>
          match first_of orgs with
          | Return o =>
              match id_of o with
              | Return orgID =>
                  (with_db (request (GetBuckets orgID (bucket s)) (db s)) s,
                   AwaitingBuckets orgID)
              | Throw e => (s, Rejected e)
              end
          | Throw e => (s, Rejected e)
          end
      | Throw e => (s, Rejected e)
      end
  | AwaitingBuckets orgID =>
      match getBuckets_settles (db s) orgID (bucket s) with
      | Return buckets =>
          match first_of buckets with
          | Return (Some _) => (set_ready s, Fulfilled)
          | Return None =>
              (with_db (request (PostBuckets (retentionRules s) orgID (bucket s)) (db s)) s,
               AwaitingPostBuckets orgID)
          | Throw e => (s, Rejected e)
          end
      | Throw e => (s, Rejected e)
      end
  | AwaitingPostBuckets orgID =>
      match postBuckets_settles (db s) (retentionRules s) orgID (bucket s) with
      | Return _ => (set_ready s, Fulfilled)
      | Throw e => (s, Rejected e)
      end
  | Fulfilled => st
  | Rejected _ => st
  end.

(** [init()] run until its promise is settled. *)
Definition init (s : DefaultSender) : DefaultSender * InitPromise :=
  init_step (init_step (init_step (init_call s))).

(** [isReady()] *)
Definition isReady (s : DefaultSender) : bool := ready s.

(** [send(points)] *)
Definition send (points : list Point) (s : DefaultSender)
    : result () * DefaultSender :=
  (writePoints_returns (db s) points,
   with_db (request (WritePoints (org s) (bucket s) (precision s) points) (db s)) s).

End Sender.

End InfluxBucket.

(** * Properties *)

(** ** The CSV metric reporter: dedup policy *)

Module CsvDedup.
Import Js Csv.

Lemma hasChanged_without_entry (metricId : Z) (v : number) (date : Date)
    (r : CsvMetricReporter) :
  metricStates r !! metricId = None ->
  hasChanged metricId v date r =
    (true, set_metricStates
             (<[metricId := mkMetricEntry (getTime date) v]> (metricStates r)) r).
Proof. intros H. unfold hasChanged. now rewrite H. Qed.

(** The decision taken against a stored entry. *)
Definition decision (stored : MetricEntry) (v : number) (date : Date)
    (r : CsvMetricReporter) : bool :=
  strict_neq (lastValue stored) v
  || (lastReport stored + minReportingTimeout r <? getTime date)%Z.

Lemma hasChanged_with_entry (metricId : Z) (v : number) (date : Date)
    (r : CsvMetricReporter) (stored : MetricEntry) :
  metricStates r !! metricId = Some stored ->
  hasChanged metricId v date r =
    (decision stored v date r,
     set_metricStates
       (<[metricId := if decision stored v date r
                      then mkMetricEntry (getTime date) (lastValue stored)
                      else stored]> (metricStates r)) r).
Proof.
  intros H. unfold hasChanged, decision. rewrite H.
  destruct (strict_neq (lastValue stored) v); simpl; [reflexivity|].
  now destruct (lastReport stored + minReportingTimeout r <? getTime date)%Z.
Qed.

Lemma decision_true_iff (stored : MetricEntry) (v : number) (date : Date)
    (r : CsvMetricReporter) :
  decision stored v date r = true <->
  strict_neq (lastValue stored) v = true
  \/ (minReportingTimeout r < getTime date - lastReport stored)%Z.
Proof.
  unfold decision. rewrite orb_true_iff, Z.ltb_lt.
  split; (intros [H|H]; [now left | right; lia]).
Qed.

Lemma set_metricStates_id (r : CsvMetricReporter) :
  set_metricStates (metricStates r) r = r.
Proof. now destruct r. Qed.

Lemma trace_writeRows (metric : Metric) (rows : Rows) (type : MetricType) (w : World) :
  trace (writeRows metric rows type w) = trace w ++ (WriteRow metric <$> rows).
Proof.
  unfold writeRows. revert w.
  induction rows as [|row rows IH]; intros w; simpl.
  - now rewrite app_nil_r.
  - rewrite IH. simpl. now rewrite <- app_assoc.
Qed.

(** What [reportMetric] does for a metric that has an [id]. *)
Lemma reportMetric_with_id (date : Date) (type : MetricType)
    (reportFunction : Metric -> Date -> Rows)
    (lastModifiedFunction : Metric -> number)
    (r : CsvMetricReporter) (w : World) (metric : Metric) (n : Z) :
  id metric = Some n -> n <> 0%Z ->
  let res := hasChanged n (lastModifiedFunction metric) date r in
  let st' := reportMetric date type reportFunction lastModifiedFunction (r, w) metric in
  fst st' = snd res /\
  trace (snd st') =
    trace w ++ Evaluated metric date (fst res)
            :: (if fst res then WriteRow metric <$> reportFunction metric date else []).
Proof.
  intros Hid Hn. simpl. unfold reportMetric. rewrite Hid. simpl.
  replace (n =? 0)%Z with false by (symmetry; now apply Z.eqb_neq).
  simpl.
  destruct (hasChanged n (lastModifiedFunction metric) date r) as [changed r'].
  simpl. destruct changed; simpl; [|easy].
  destruct (reportFunction metric date) as [|row rows]; simpl; [easy|].
  split; [easy|].
  rewrite (trace_writeRows metric rows type). simpl.
  now rewrite <- !app_assoc.
Qed.

(** What [reportMetric] does for a metric without an [id] (or with the
    falsy id 0): it is reported, and no entry is kept for it. *)
Lemma reportMetric_without_id (date : Date) (type : MetricType)
    (reportFunction : Metric -> Date -> Rows)
    (lastModifiedFunction : Metric -> number)
    (r : CsvMetricReporter) (w : World) (metric : Metric) :
  truthy (id metric) = false ->
  let st' := reportMetric date type reportFunction lastModifiedFunction (r, w) metric in
  fst st' = r /\
  trace (snd st') =
    trace w ++ Evaluated metric date true
            :: (WriteRow metric <$> reportFunction metric date).
Proof.
  intros Hid. simpl. unfold reportMetric.
  assert (Hsel : match id metric with
                 | Some n => if truthy (id metric)
                             then hasChanged n (lastModifiedFunction metric) date r
                             else (true, r)
                 | None => (true, r)
                 end = (true, r)).
  { destruct (id metric); [now rewrite Hid | reflexivity]. }
  rewrite Hsel. simpl.
  destruct (reportFunction metric date) as [|row rows]; simpl; [easy|].
  split; [easy|].
  rewrite (trace_writeRows metric rows type). simpl.
  now rewrite <- !app_assoc.
Qed.

(** An accepted report of a metric that has an entry writes the date
    into [lastReport] and keeps the stored [lastValue]. *)
Lemma hasChanged_accepted_entry (metricId : Z) (v : number) (date : Date)
    (r : CsvMetricReporter) (stored : MetricEntry) :
  metricStates r !! metricId = Some stored ->
  fst (hasChanged metricId v date r) = true ->
  metricStates (snd (hasChanged metricId v date r)) !! metricId
  = Some (mkMetricEntry (getTime date) (lastValue stored)).
Proof.
  intros H. rewrite (hasChanged_with_entry _ _ _ _ _ H). simpl.
  intros ->. apply lookup_insert_eq.
Qed.

(** A rejected report leaves the reporter as it was. *)
Lemma hasChanged_rejected_untouched (metricId : Z) (v : number) (date : Date)
    (r : CsvMetricReporter) :
  fst (hasChanged metricId v date r) = false ->
  snd (hasChanged metricId v date r) = r.
Proof.
  destruct (metricStates r !! metricId) as [stored|] eqn:H.
  - rewrite (hasChanged_with_entry _ _ _ _ _ H). simpl. intros ->.
    rewrite insert_id by exact H. apply set_metricStates_id.
  - rewrite (hasChanged_without_entry _ _ _ _ H). discriminate.
Qed.

(** Entries of other metrics are not touched. *)
Lemma hasChanged_other_entries (metricId other : Z) (v : number) (date : Date)
    (r : CsvMetricReporter) :
  other <> metricId ->
  metricStates (snd (hasChanged metricId v date r)) !! other
  = metricStates r !! other.
Proof.
  intros Hne.
  destruct (metricStates r !! metricId) as [stored|] eqn:H.
  - rewrite (hasChanged_with_entry _ _ _ _ _ H). simpl.
    now apply lookup_insert_ne.
  - rewrite (hasChanged_without_entry _ _ _ _ H). simpl.
    now apply lookup_insert_ne.
Qed.

(** A reporter to evaluate the code on. *)
Definition example_options : CsvMetricReporterOptions :=
  mkOptions 1000 (mkTimeUnit (fun v => v)) true false
    ALL_IN_ONE_COLUMN ALL_IN_ONE_COLUMN "," "tag_" "meta_"
    [col_date; col_name; col_value] "utf8" "metrics.csv" "/tmp" None None.

Definition example_reporter (minReportingTimeout : Z)
    (states : gmap Z MetricEntry) : CsvMetricReporter :=
  set_metricStates states
    (constructor example_options ∅ (fun n => 0%Z) minReportingTimeout).

Definition example_metric (n : Z) (v : number) : Metric :=
  mkMetric (Some n) ∅ ∅ v v.

(** C1, as stated, fails: an unchanged metric last reported at 1000 is
    evaluated at 1060 with [minReportingTimeout = 60].  The time elapsed
    is at least the timeout, and the metric is not reported. *)
Lemma dedup_timeout_boundary_not_reported :
  let r := example_reporter 60 {[ 7%Z := mkMetricEntry 1000 (Num 5) ]} in
  let date := mkDate 1060 in
  metricStates r !! 7%Z = Some (mkMetricEntry 1000 (Num 5)) /\
  ~ (fst (hasChanged 7 (Num 5) date r) = true <->
     strict_neq (Num 5) (Num 5) = true
     \/ (getTime date - 1000 >= minReportingTimeout r)%Z).
Proof.
  simpl. split; [reflexivity|].
  intros [_ H].
  assert (Hge : (1060 - 1000 >= 60)%Z) by lia.
  specialize (H (or_intror Hge)). vm_compute in H. discriminate.
Qed.

(** C1 (amended): a metric that has an id and is evaluated on a tick is
    reported, and an entry with the tick's date and its value is
    created, when no entry exists for its id; when an entry exists it is
    reported if and only if its current value differs from the entry's
    [lastValue] or the time elapsed since the entry's [lastReport] is
    strictly greater than [minReportingTimeout].  Being reported is the
    decision [changed] logged for the metric, after which its rows are
    written. *)
Theorem dedup_policy (date : Date) (type : MetricType)
    (reportFunction : Metric -> Date -> Rows)
    (lastModifiedFunction : Metric -> number)
    (r : CsvMetricReporter) (w : World) (metric : Metric) (n : Z) :
  id metric = Some n -> n <> 0%Z ->
  let v := lastModifiedFunction metric in
  let st' := reportMetric date type reportFunction lastModifiedFunction (r, w) metric in
  exists changed : bool,
    trace (snd st') =
      trace w ++ Evaluated metric date changed
              :: (if changed then WriteRow metric <$> reportFunction metric date else [])
    /\ match metricStates r !! n with
       | None =>
           changed = true /\
           metricStates (fst st') !! n = Some (mkMetricEntry (getTime date) v)
       | Some stored =>
           changed = true <->
           strict_neq (lastValue stored) v = true
           \/ (minReportingTimeout r < getTime date - lastReport stored)%Z
       end.
Proof.
  intros Hid Hn v st'.
  destruct (reportMetric_with_id date type reportFunction lastModifiedFunction
              r w metric n Hid Hn) as [Hr Ht].
  fold st' in Hr, Ht. fold v in Hr, Ht.
  exists (fst (hasChanged n v date r)). split; [exact Ht|].
  destruct (metricStates r !! n) as [stored|] eqn:Hs.
  - rewrite (hasChanged_with_entry _ _ _ _ _ Hs). simpl.
    apply decision_true_iff.
  - rewrite Hr, (hasChanged_without_entry _ _ _ _ Hs). simpl.
    split; [reflexivity | apply lookup_insert_eq].
Qed.

Lemma dedup_policy_witness :
  exists changed : bool,
    trace (snd (reportMetric (mkDate 1061) counter reportCounter getCount
                  (example_reporter 60 {[ 7%Z := mkMetricEntry 1000 (Num 5) ]},
                   mkWorld 0 [] [])
                  (example_metric 7 (Num 5)))) =
      [] ++ Evaluated (example_metric 7 (Num 5)) (mkDate 1061) changed
         :: (if changed
             then WriteRow (example_metric 7 (Num 5))
                    <$> reportCounter (example_metric 7 (Num 5)) (mkDate 1061)
             else [])
    /\ (changed = true <->
        strict_neq (Num 5) (Num 5) = true \/ (60 < 1061 - 1000)%Z).
Proof.
  exact (dedup_policy (mkDate 1061) counter reportCounter getCount
           (example_reporter 60 {[ 7%Z := mkMetricEntry 1000 (Num 5) ]})
           (mkWorld 0 [] []) (example_metric 7 (Num 5)) 7
           eq_refl ltac:(discriminate)).
Defined.

(** C2: the code at an accepted report of a metric that already has an
    entry.  The entry of metric 7 holds the value 5 reported at 1000.  At
    2000 the value is 7: the report is accepted and [lastReport] becomes
    2000, but [lastValue] stays 5, not the value just reported.  At 2001
    the value is still 7, the value reported at 2000, less than the
    timeout of 60 later: the report is accepted again. *)
Theorem accepted_report_keeps_stale_lastValue :
  let r := example_reporter 60 {[ 7%Z := mkMetricEntry 1000 (Num 5) ]} in
  let first := hasChanged 7 (Num 7) (mkDate 2000) r in
  let second := hasChanged 7 (Num 7) (mkDate 2001) (snd first) in
  fst first = true /\
  metricStates (snd first) !! 7%Z = Some (mkMetricEntry 2000 (Num 5)) /\
  fst second = true /\
  metricStates (snd second) !! 7%Z = Some (mkMetricEntry 2001 (Num 5)).
Proof. vm_compute. repeat split; reflexivity. Qed.

(** The part of C2 the code does keep: a rejected report leaves the
    entry, and the whole reporter, untouched; an accepted one sets
    [lastReport] to the tick's date. *)
Lemma accepted_sets_lastReport_rejected_untouched (metricId : Z) (v : number)
    (date : Date) (r : CsvMetricReporter) :
  let res := hasChanged metricId v date r in
  if fst res
  then lastReport <$> metricStates (snd res) !! metricId = Some (getTime date)
  else snd res = r.
Proof.
  simpl. destruct (fst (hasChanged metricId v date r)) eqn:Hc.
  - destruct (metricStates r !! metricId) as [stored|] eqn:H.
    + now rewrite (hasChanged_accepted_entry _ _ _ _ _ H Hc).
    + rewrite (hasChanged_without_entry _ _ _ _ H). simpl.
      now rewrite lookup_insert_eq.
  - now apply hasChanged_rejected_untouched.
Qed.

(** One minute, in the unit of [Date.getTime()]. *)
Definition MINUTE_in_milliseconds : Z := 60000.

(** C3: for a metric whose value is unchanged, [hasChanged] adds
    [minReportingTimeout] as it is to the stored [lastReport] and compares
    the sum with [date.getTime()]; the stored [lastReport] is itself a
    [date.getTime()] of an earlier call.  With the constructor's default
    of 1, documented as one minute, an unchanged metric is reported again
    2 milliseconds after its last report. *)
Theorem timeout_added_to_millisecond_timestamp (metricId : Z) (v : number)
    (date : Date) (r : CsvMetricReporter) (stored : MetricEntry) :
  metricStates r !! metricId = Some stored ->
  strict_neq (lastValue stored) v = false ->
  fst (hasChanged metricId v date r)
    = (lastReport stored + minReportingTimeout r <? getTime date)%Z
  /\ (fst (hasChanged metricId v date r) = true ->
      lastReport <$> metricStates (snd (hasChanged metricId v date r)) !! metricId
      = Some (getTime date))
  /\ (minReportingTimeout r = default_minReportingTimeout ->
      (lastReport stored + 2 <= getTime date)%Z ->
      fst (hasChanged metricId v date r) = true).
Proof.
  intros H Hv. rewrite (hasChanged_with_entry _ _ _ _ _ H). simpl.
  unfold decision. rewrite Hv. simpl. split; [reflexivity|]. split.
  - intros ->. now rewrite lookup_insert_eq.
  - intros -> Hle. unfold default_minReportingTimeout. apply Z.ltb_lt. lia.
Qed.

Lemma timeout_added_to_millisecond_timestamp_witness :
  let r := example_reporter default_minReportingTimeout
             {[ 7%Z := mkMetricEntry 1000 (Num 5) ]} in
  let date := mkDate 1002 in
  (getTime date - 1000 < MINUTE_in_milliseconds)%Z /\
  fst (hasChanged 7 (Num 5) date r) = true.
Proof.
  split; [reflexivity|].
  refine (proj2 (proj2 (timeout_added_to_millisecond_timestamp 7 (Num 5)
           (mkDate 1002)
           (example_reporter default_minReportingTimeout
              {[ 7%Z := mkMetricEntry 1000 (Num 5) ]})
           (mkMetricEntry 1000 (Num 5)) _ _)) _ _).
  - vm_compute. reflexivity.
  - reflexivity.
  - reflexivity.
  - simpl. lia.
Defined.

End CsvDedup.

(** ** The CSV metric reporter: tags *)

Module CsvTags.
Import Js Csv.

Lemma Object_set_commute (k1 k2 v1 v2 : string) (obj : gmap string string) :
  k1 <> k2 ->
  Object_set k1 v1 (Object_set k2 v2 obj) = Object_set k2 v2 (Object_set k1 v1 obj).
Proof.
  intros Hne. unfold Object_set.
  destruct (decide (k1 = "__proto__")), (decide (k2 = "__proto__")); try reflexivity.
  now apply insert_insert_ne.
Qed.

(** Copying a map into an object, property by property: every entry but
    one under ["__proto__"] arrives, over what the object held. *)
Lemma forEach_Object_set (m acc : gmap string string) :
  forEach m (fun tag key acc => Object_set key tag acc) acc
  = delete "__proto__" m ∪ acc.
Proof.
  unfold forEach.
  induction m as [|key tag m Hfresh IH] using map_ind.
  - rewrite map_fold_empty, delete_empty. now rewrite (left_id_L ∅ (∪)).
  - rewrite map_fold_insert_L.
    + rewrite IH. unfold Object_set.
      destruct (decide (key = "__proto__")) as [-> | Hne].
      * now rewrite delete_insert_eq.
      * rewrite delete_insert_ne by congruence. apply insert_union_l.
    + intros j1 j2 z1 z2 y Hne _ _. now apply Object_set_commute.
    + exact Hfresh.
Qed.

Lemma buildTags_defined (taggable : Metric) (r : CsvMetricReporter)
    (reporterTags : gmap string string) :
  tags r = Some reporterTags ->
  buildTags taggable r
  = Return (delete "__proto__" (getTags taggable ∪ reporterTags)).
Proof.
  intros H. unfold buildTags. rewrite H.
  rewrite !forEach_Object_set. rewrite (right_id_L ∅ (∪)).
  now rewrite delete_union.
Qed.

Lemma buildTags_undefined (taggable : Metric) (r : CsvMetricReporter) :
  tags r = None ->
  buildTags taggable r
  = Throw (TypeError "Cannot read property 'forEach' of undefined").
Proof. intros H. unfold buildTags. now rewrite H. Qed.




End CsvTags.

(** ** The CSV metric reporter: one tick *)

Module CsvTick.
Import Js Csv.

Lemma set_metricStates_twice (m m' : gmap Z MetricEntry) (r : CsvMetricReporter) :
  set_metricStates m' (set_metricStates m r) = set_metricStates m' r.
Proof. reflexivity. Qed.

Lemma hasChanged_frame (metricId : Z) (v : number) (date : Date)
    (r : CsvMetricReporter) :
  exists m, snd (hasChanged metricId v date r) = set_metricStates m r.
Proof.
  unfold hasChanged.
  destruct (metricStates r !! metricId) as [stored|]; simpl.
  - destruct (if negb (strict_neq (lastValue stored) v)
              then (lastReport stored + minReportingTimeout r <? getTime date)%Z
              else strict_neq (lastValue stored) v); simpl; eauto.
  - eauto.
Qed.

(** One metric of a batch whose formatting function writes no rows: the
    decision is logged with the date of the batch, and only
    [metricStates] may change. *)
Lemma reportMetric_step (date : Date) (type : MetricType)
    (reportFunction : Metric -> Date -> Rows)
    (lastModifiedFunction : Metric -> number)
    (r : CsvMetricReporter) (w : World) (metric : Metric) :
  (forall m d, reportFunction m d = []) ->
  exists (changed : bool) (m : gmap Z MetricEntry),
    reportMetric date type reportFunction lastModifiedFunction (r, w) metric
    = (set_metricStates m r, log (Evaluated metric date changed) w).
Proof.
  intros Hrows. unfold reportMetric.
  destruct (id metric) as [n|]; [destruct (truthy (Some n))|].
  - destruct (hasChanged_frame n (lastModifiedFunction metric) date r) as [m Hm].
    destruct (hasChanged n (lastModifiedFunction metric) date r) as [changed r'].
    simpl in Hm. subst r'. exists changed, m.
    destruct changed; [rewrite Hrows|]; reflexivity.
  - exists true, (metricStates r). rewrite Hrows. simpl.
    now rewrite CsvDedup.set_metricStates_id.
  - exists true, (metricStates r). rewrite Hrows. simpl.
    now rewrite CsvDedup.set_metricStates_id.
Qed.

Definition evaluations (date : Date) (metrics : list Metric) (decisions : list bool)
    : list Event :=
  zip_with (fun metric changed => Evaluated metric date changed) metrics decisions.

Lemma evaluations_app (date : Date) (ms1 ms2 : list Metric) (ds1 ds2 : list bool) :
  length ds1 = length ms1 ->
  evaluations date (ms1 ++ ms2) (ds1 ++ ds2)
  = evaluations date ms1 ds1 ++ evaluations date ms2 ds2.
Proof.
  intros Hlen. unfold evaluations. now apply zip_with_app.
Qed.

(** A batch: every metric is evaluated, in order, with the date of the
    batch; the clock is not read. *)
Lemma reportMetrics_batch (metrics : list Metric) (date : Date) (type : MetricType)
    (reportFunction : Metric -> Date -> Rows)
    (lastModifiedFunction : Metric -> number)
    (r : CsvMetricReporter) (w : World) :
  (forall m d, reportFunction m d = []) ->
  exists (decisions : list bool) (m : gmap Z MetricEntry),
    length decisions = length metrics /\
    reportMetrics metrics date type reportFunction lastModifiedFunction (r, w)
    = (set_metricStates m r,
       mkWorld (clockCalls w) (timers w)
               (trace w ++ evaluations date metrics decisions)).
Proof.
  intros Hrows. unfold reportMetrics. revert r w.
  induction metrics as [|metric metrics IH]; intros r w; cbn [foldl].
  - exists [], (metricStates r). split; [reflexivity|]. simpl.
    rewrite CsvDedup.set_metricStates_id, app_nil_r. now destruct w.
  - destruct (reportMetric_step date type reportFunction lastModifiedFunction
                r w metric Hrows) as (changed & m & ->).
    destruct (IH (set_metricStates m r) (log (Evaluated metric date changed) w))
      as (decisions & m' & Hlen & ->).
    exists (changed :: decisions), m'. split; [simpl; now rewrite Hlen|].
    simpl. now rewrite <- app_assoc.
Qed.

Lemma stubs_write_no_rows :
  (forall m d, reportCounter m d = []) /\ (forall m d, reportGauge m d = []) /\
  (forall m d, reportHistogram m d = []) /\ (forall m d, reportMeter m d = []) /\
  (forall m d, reportTimer m d = []).
Proof. repeat split. Qed.

Lemma reportMetricRegistry_batches (registry : MetricRegistry)
    (r : CsvMetricReporter) (w : World) :
  let now := mkDate (clock r (clockCalls w)) in
  exists (decisions : list bool) (m : gmap Z MetricEntry),
    length decisions = length (getMetricList registry) /\
    reportMetricRegistry registry (r, w)
    = (set_metricStates m r,
       mkWorld (S (clockCalls w)) (timers w)
               (trace w ++ evaluations now (getMetricList registry) decisions)).
Proof.
  intros now. unfold reportMetricRegistry, clock_time. fold now.
  destruct stubs_write_no_rows as (Hc & Hg & Hh & Hm & Ht).
  set (w0 := mkWorld (S (clockCalls w)) (timers w) (trace w)).
  destruct (reportMetrics_batch (getMonotoneCounterList registry) now counter
              reportCounter getCount r w0 Hc) as (d1 & m1 & L1 & ->).
  destruct (reportMetrics_batch (getCounterList registry) now counter
              reportCounter getCount (set_metricStates m1 r)
              (mkWorld (clockCalls w0) (timers w0)
                 (trace w0 ++ evaluations now (getMonotoneCounterList registry) d1)) Hc)
    as (d2 & m2 & L2 & ->).
  match goal with
  | |- context [reportMetrics (getGaugeList registry) _ _ _ _ (?r', ?w')] =>
      destruct (reportMetrics_batch (getGaugeList registry) now gauge
                  reportGauge getValue r' w' Hg) as (d3 & m3 & L3 & ->)
  end.
  match goal with
  | |- context [reportMetrics (getHistogramList registry) _ _ _ _ (?r', ?w')] =>
      destruct (reportMetrics_batch (getHistogramList registry) now histogram
                  reportHistogram getCount r' w' Hh) as (d4 & m4 & L4 & ->)
  end.
  match goal with
  | |- context [reportMetrics (getMeterList registry) _ _ _ _ (?r', ?w')] =>
      destruct (reportMetrics_batch (getMeterList registry) now meter
                  reportMeter getCount r' w' Hm) as (d5 & m5 & L5 & ->)
  end.
  match goal with
  | |- context [reportMetrics (getTimerList registry) _ _ _ _ (?r', ?w')] =>
      destruct (reportMetrics_batch (getTimerList registry) now timer_type
                  reportTimer getCount r' w' Ht) as (d6 & m6 & L6 & ->)
  end.
  exists (d1 ++ d2 ++ d3 ++ d4 ++ d5 ++ d6), m6. split.
  - unfold getMetricList. rewrite !length_app. lia.
  - simpl. f_equal. f_equal. unfold getMetricList.
    rewrite !evaluations_app by assumption.
    now rewrite <- !app_assoc.
Qed.

(** A clock that advances by 100 milliseconds from one reading to the
    next, and two registries with one counter each. *)
Definition advancing_clock : Clock := fun n => (100 + 100 * Z.of_nat n)%Z.

Definition registry_of (c : Metric) : MetricRegistry :=
  mkMetricRegistry [] [c] [] [] [] [].

Definition two_registries : CsvMetricReporter :=
  mkReporter
    [registry_of (CsvDedup.example_metric 1 (Num 5));
     registry_of (CsvDedup.example_metric 2 (Num 5))]
    CsvDedup.example_options None advancing_clock 150 None
    {[ 1%Z := mkMetricEntry 0 (Num 5); 2%Z := mkMetricEntry 0 (Num 5) ]} None.

(** C7, as stated, fails: in one tick over two registries the counter
    of the first is evaluated against 100 and the counter of the second
    against 200.  Both have the same unchanged value and the same last
    report, and with a timeout of 150 the first is rejected and the
    second is accepted. *)
Lemma tick_reads_clock_per_registry :
  trace (snd (report two_registries (mkWorld 0 [] [])))
  = [ WriterInit "/tmp" "metrics.csv" None;
      Evaluated (CsvDedup.example_metric 1 (Num 5)) (mkDate 100) false;
      Evaluated (CsvDedup.example_metric 2 (Num 5)) (mkDate 200) true ]
  /\ ~ (exists now : Date,
          Forall (fun e => match e with
                           | Evaluated _ date _ => date = now
                           | _ => True
                           end)
                 (trace (snd (report two_registries (mkWorld 0 [] []))))).
Proof.
  assert (Ht : trace (snd (report two_registries (mkWorld 0 [] [])))
               = [ WriterInit "/tmp" "metrics.csv" None;
                   Evaluated (CsvDedup.example_metric 1 (Num 5)) (mkDate 100) false;
                   Evaluated (CsvDedup.example_metric 2 (Num 5)) (mkDate 200) true ])
    by (vm_compute; reflexivity).
  split; [exact Ht|].
  rewrite Ht. intros [now Hall].
  inversion Hall as [|? ? _ Hrest]; subst.
  inversion Hrest as [|? ? H1 Hrest']; subst.
  inversion Hrest' as [|? ? H2 _]; subst.
  discriminate H2.
Qed.

(** C7 (amended): within one tick, every instrument of one registry is
    evaluated against a single timestamp, read from the clock once when
    the tick reaches that registry; every instrument of the registry is
    evaluated, in the order of the typed listings. *)
Theorem registry_evaluated_against_one_now (registry : MetricRegistry)
    (r : CsvMetricReporter) (w : World) :
  let now := mkDate (clock r (clockCalls w)) in
  let st' := reportMetricRegistry registry (r, w) in
  clockCalls (snd st') = S (clockCalls w) /\
  exists decisions : list bool,
    length decisions = length (getMetricList registry) /\
    trace (snd st') = trace w ++ evaluations now (getMetricList registry) decisions.
Proof.
  intros now st'.
  destruct (reportMetricRegistry_batches registry r w) as (decisions & m & Hlen & Heq).
  unfold st'. rewrite Heq. simpl. split; [reflexivity|].
  exists decisions. split; [exact Hlen | reflexivity].
Qed.

End CsvTick.

(** ** The CSV metric reporter: life cycle and the constructor's tags *)

Module CsvLifecycle.
Import Js Csv.

Lemma unref_length (handle : nat) (w : World) :
  length (timers (unref handle w)) = length (timers w).
Proof. unfold unref. simpl. apply length_alter. Qed.

Lemma unref_lookup (handle : nat) (w : World) :
  timers (unref handle w) !! handle
  = (fun t => mkTimer (timer_interval t) false) <$> timers w !! handle.
Proof. unfold unref. simpl. apply list_lookup_alter_eq. Qed.

Lemma unref_twice (handle : nat) (w : World) :
  unref handle (unref handle w) = unref handle w.
Proof.
  unfold unref. simpl. f_equal.
  generalize (timers w) as l. clear w. intros l. revert handle.
  induction l as [|t l IH]; intros [|handle]; simpl; try reflexivity.
  f_equal. apply IH.
Qed.

(** With the reporter's tags set, building the tags and the header
    raises no error. *)
Lemma map_buildTags_defined (metrics : list Metric) (r : CsvMetricReporter)
    (reporterTags : gmap string string) :
  tags r = Some reporterTags ->
  exists built, map_buildTags metrics r = Return built.
Proof.
  intros H. induction metrics as [|metric metrics [built IH]]; simpl; [eauto|].
  rewrite (CsvTags.buildTags_defined _ _ _ H). simpl. rewrite IH. simpl. eauto.
Qed.

Lemma map_registries_buildTags_defined (registries : list MetricRegistry)
    (r : CsvMetricReporter) (reporterTags : gmap string string) :
  tags r = Some reporterTags ->
  exists built, map_registries_buildTags registries r = Return built.
Proof.
  intros H. induction registries as [|registry registries [built IH]]; simpl; [eauto|].
  destruct (map_buildTags_defined (getMetricList registry) r _ H) as [b ->].
  simpl. rewrite IH. simpl. eauto.
Qed.

Lemma buildHeaders_column_defined (columnType : ColumnType) (r : CsvMetricReporter)
    (reporterTags : gmap string string) :
  tags r = Some reporterTags ->
  exists cells, buildHeaders_column columnType r = Return cells.
Proof.
  intros H. unfold buildHeaders_column.
  destruct columnType; eauto.
  - destruct (tagExportMode (options r)); [eauto|]. rewrite H.
    destruct (map_registries_buildTags_defined (metricRegistries r) r _ H) as [b ->].
    simpl. eauto.
  - destruct (metadataExportMode (options r)); eauto.
Qed.

Lemma buildHeaders_defined (r : CsvMetricReporter) (reporterTags : gmap string string) :
  tags r = Some reporterTags ->
  exists headers, buildHeaders r = Return headers.
Proof.
  intros H. unfold buildHeaders. generalize (@nil string) as headers.
  induction (columns (options r)) as [|columnType cols IH]; intros headers; simpl.
  - eauto.
  - destruct (buildHeaders_column_defined columnType r _ H) as [cells ->].
    simpl. apply IH.
Qed.

(** C6, as stated, fails: [start()] on a reporter that is already
    running is not a no-op, it arms a second timer; and after [stop()]
    the timer armed by [start()] is still armed. *)
Lemma start_while_running_arms_second_timer :
  let r0 := CsvDedup.example_reporter 1 ∅ in
  let w0 := mkWorld 0 [] [] in
  exists r1 w1 r2 w2,
    start r0 w0 = Return (r1, w1) /\
    timer r1 = Some 0 /\
    timers w1 = [mkTimer 1000 true] /\
    start r1 w1 = Return (r2, w2) /\
    start r1 w1 <> Return (r1, w1) /\
    timers w2 = [mkTimer 1000 true; mkTimer 1000 true] /\
    timers (snd (stop r1 w1)) = [mkTimer 1000 false].
Proof.
  simpl. unfold start. simpl. do 4 eexists.
  split; [reflexivity|]. split; [reflexivity|]. split; [reflexivity|].
  split; [reflexivity|]. split; [discriminate|]. split; reflexivity.
Qed.

(** C6 (amended): [start()] computes the tick interval in milliseconds,
    builds the header when a registry is registered, and arms a
    recurring timer whose handle it stores, also when a timer is armed
    already (a further timer is armed then); it fails, arming nothing,
    only when building the header fails.  [stop()] calls [unref()] on
    the stored timer, which stays armed, and changes nothing else;
    repeating it changes nothing more; when no timer was stored it is a
    no-op.  [stop()] raises no error. *)
Theorem start_arms_timer_stop_unrefs (r : CsvMetricReporter) (w : World) :
  let milliseconds := convertTo_MILLISECOND (unit (options r)) (interval (options r)) in
  let armed := mkWorld (clockCalls w) (timers w ++ [mkTimer milliseconds true]) (trace w) in
  let handle := length (timers w) in
  (if has_registries r
   then match buildHeaders r with
        | Return h =>
            start r w = Return (set_timer (Some handle) (set_header (Some h) r), armed)
        | Throw e => start r w = Throw e
        end
   else start r w = Return (set_timer (Some handle) r, armed))
  /\ match timer r with
     | None => stop r w = (r, w)
     | Some stored =>
         stop r w = (r, unref stored w) /\
         length (timers (unref stored w)) = length (timers w) /\
         timers (unref stored w) !! stored
         = (fun t => mkTimer (timer_interval t) false) <$> timers w !! stored /\
         stop r (unref stored w) = (r, unref stored w)
     end.
Proof.
  simpl. split.
  - unfold start. destruct (has_registries r); [|reflexivity].
    destruct (buildHeaders r); reflexivity.
  - unfold stop. destruct (timer r) as [stored|]; [|reflexivity].
    split; [reflexivity|]. split; [apply unref_length|].
    split; [apply unref_lookup|]. now rewrite unref_twice.
Qed.

(** A call on a reporter other than [setTags]; a rejected [start()]
    leaves the reporter as it was. *)
Inductive Call : Type :=
| call_addMetricRegistry (registry : MetricRegistry)
| call_start
| call_stop
| call_report.

Definition call (st : CsvMetricReporter * World) (c : Call)
    : CsvMetricReporter * World :=
  match c with
  | call_addMetricRegistry registry => (addMetricRegistry registry (fst st), snd st)
  | call_start =>
      match start (fst st) (snd st) with
      | Return st' => st'
      | Throw _ => st
      end
  | call_stop => stop (fst st) (snd st)
  | call_report => report (fst st) (snd st)
  end.

Definition calls (cs : list Call) (st : CsvMetricReporter * World)
    : CsvMetricReporter * World :=
  foldl call st cs.

Lemma report_tags (r : CsvMetricReporter) (w : World) :
  tags (fst (report r w)) = tags r.
Proof.
  unfold report. destruct (has_registries r); [|reflexivity].
  generalize (log (WriterInit (dir (options r)) (filename (options r)) (header r)) w).
  generalize (metricRegistries r) as registries.
  intros registries. revert r.
  induction registries as [|registry registries IH]; intros r w'; cbn [foldl].
  - reflexivity.
  - destruct (CsvTick.reportMetricRegistry_batches registry r w')
      as (decisions & m & _ & ->).
    now rewrite IH.
Qed.

Lemma start_tags (r r' : CsvMetricReporter) (w w' : World) :
  start r w = Return (r', w') -> tags r' = tags r.
Proof.
  unfold start. destruct (has_registries r).
  - destruct (buildHeaders r); simpl; [|discriminate].
    intros [= <- _]. reflexivity.
  - simpl. intros [= <- _]. reflexivity.
Qed.

Lemma call_tags (st : CsvMetricReporter * World) (c : Call) :
  tags (fst (call st c)) = tags (fst st).
Proof.
  destruct st as [r w]. destruct c; simpl.
  - reflexivity.
  - destruct (start r w) as [[r' w']|e] eqn:Hs; [|reflexivity].
    apply (start_tags _ _ _ _ Hs).
  - unfold stop. now destruct (timer r).
  - apply report_tags.
Qed.

Lemma calls_tags (cs : list Call) (st : CsvMetricReporter * World) :
  tags (fst (calls cs st)) = tags (fst st).
Proof.
  unfold calls. revert st.
  induction cs as [|c cs IH]; intros st; cbn [foldl]; [reflexivity|].
  now rewrite IH, call_tags.
Qed.

(** C9: whatever tags map is passed to the constructor, [getTags()] of
    the constructed reporter is [undefined], and stays so through any
    calls other than [setTags]; until then [buildTags] faults on the
    missing map instead of merging the supplied tags.  After
    [setTags(t)], [getTags()] is [t] and [buildTags] merges [t] with the
    instrument's tags (a key ["__proto__"] apart, which an object does
    not take). *)
Theorem constructor_drops_tags (options : CsvMetricReporterOptions)
    (suppliedTags : gmap string string) (clock : Clock) (minReportingTimeout : Z)
    (cs : list Call) (w : World) (taggable : Metric) :
  let r := fst (calls cs (constructor options suppliedTags clock minReportingTimeout, w)) in
  getTags_reporter r = None /\
  buildTags taggable r
  = Throw (TypeError "Cannot read property 'forEach' of undefined") /\
  forall t : gmap string string,
    getTags_reporter (setTags t r) = Some t /\
    buildTags taggable (setTags t r)
    = Return (delete "__proto__" (getTags taggable ∪ t)).
Proof.
  intros r.
  assert (Hr : tags r = None) by (unfold r; now rewrite calls_tags).
  split; [exact Hr|]. split; [now apply CsvTags.buildTags_undefined|].
  intros t. split; [reflexivity|]. now apply CsvTags.buildTags_defined.
Qed.

(** A tick reaches [buildTags] through [buildHeaders]: with a registry
    registered and the tags exported each in its own column, [start()]
    on a freshly constructed reporter is rejected, whatever tags the
    constructor was given. *)
Lemma start_rejected_before_setTags :
  let options :=
    mkOptions 1000 (mkTimeUnit (fun v => v)) true false
      EACH_IN_OWN_COLUMN ALL_IN_ONE_COLUMN "," "tag_" "meta_"
      [col_date; col_tags] "utf8" "metrics.csv" "/tmp" None None in
  let r := addMetricRegistry (CsvTick.registry_of (CsvDedup.example_metric 1 (Num 5)))
             (constructor options {[ "env" := "prod" ]} (fun _ => 0%Z) 1) in
  start r (mkWorld 0 [] [])
  = Throw (TypeError "Cannot read property 'forEach' of undefined") /\
  start (setTags {[ "env" := "prod" ]} r) (mkWorld 0 [] [])
  = Return (set_timer (Some 0)
              (set_header (Some ["date"; "tag_env"]) (setTags {[ "env" := "prod" ]} r)),
            mkWorld 0 [mkTimer 1000 true] []).
Proof. split; vm_compute; reflexivity. Qed.

End CsvLifecycle.

(** ** The logger reporter: instruments whose value is not a number *)

Module LoggerNaN.
Import Js Logger.

(** The six instrument variants, the reading each is judged by and the
    function that formats it. *)
Inductive Variant : Type :=
| MonotoneCounter | Counter | Gauge | Histogram | Meter | Timer.

Definition numericValue (v : Variant) (metric : Metric) : number :=
  match v with
  | Gauge => getValue metric
  | _ => getCount metric
  end.

Section Formatting.

Context {TimeUnit MetricRegistry MetricType : Type}.
Variable buildTags : MetricRegistry -> Metric -> result (gmap string string).
Variable getNumber : number -> number.
Variable dateToString : Date -> string.
Variable numberToString : number -> string.

Abbreviation Context := (@LoggerReportingContext TimeUnit MetricRegistry MetricType).
Abbreviation Line := (@LogLine TimeUnit MetricType).

Definition formatter (v : Variant)
    : Metric -> Context -> result (option Line) * Context :=
  match v with
  | MonotoneCounter | Counter => reportCounter buildTags dateToString numberToString
  | Gauge => reportGauge buildTags dateToString numberToString
  | Histogram => reportHistogram buildTags getNumber dateToString numberToString
  | Meter => reportMeter buildTags getNumber dateToString numberToString
  | Timer => reportTimer buildTags getNumber dateToString numberToString
  end.

Lemma formatter_not_a_number (v : Variant) (metric : Metric) (ctx : Context) :
  isNaN (numericValue v metric) = true ->
  formatter v metric ctx = (Return None, ctx).
Proof.
  destruct v; simpl; intros H;
    unfold reportCounter, reportGauge, reportHistogram, reportMeter, reportTimer;
    now rewrite H.
Qed.

(** C5: formatting an instrument whose numeric value is not a number
    yields no result: the function returns [null], it raises no error
    (whatever [buildTags] would do), and it leaves the reporting
    context as it was. *)
Theorem not_a_number_yields_no_result (v : Variant) (metric : Metric) (ctx : Context) :
  isNaN (numericValue v metric) = true ->
  fst (formatter v metric ctx) = Return None /\
  snd (formatter v metric ctx) = ctx.
Proof.
  intros H. now rewrite (formatter_not_a_number v metric ctx H).
Qed.

(** A valid number is formatted: a result is produced unless building
    the tags fails. *)
Lemma a_number_yields_a_result (v : Variant) (metric : Metric) (ctx : Context)
    (built : gmap string string) :
  isNaN (numericValue v metric) = false ->
  buildTags (registry ctx) metric = Return built ->
  exists line ctx', formatter v metric ctx = (Return (Some line), ctx').
Proof.
  destruct v; simpl; intros H Hb;
    unfold reportCounter, reportGauge, reportHistogram, reportMeter, reportTimer,
           log_line, set_measurement;
    rewrite H, Hb; simpl; eauto.
Qed.

(** In a batch, the instrument is skipped and the rest of the batch is
    formatted as if it were not there. *)
Lemma not_a_number_filtered_from_batch (v : Variant) (metric : Metric)
    (rest : list Metric) (ctx : Context) :
  isNaN (numericValue v metric) = true ->
  formatBatch (formatter v) (metric :: rest) ctx
  = formatBatch (formatter v) rest ctx.
Proof.
  intros H. simpl. now rewrite (formatter_not_a_number v metric ctx H).
Qed.

End Formatting.

Definition example_snapshot : Snapshot :=
  mkSnapshot (Num 0) (Num 0) (Num 0) (Num 0) (Num 0) (Num 0) (Num 0) (Num 0)
             (Num 0) (Num 0).

Definition example_context : @LoggerReportingContext () () string :=
  mkContext (mkDate 0) (mkLogMetadata 1000 ∅ () "" (Some "gauge") (Some (mkDate 0)) None)
            [] () "gauge".

Lemma not_a_number_yields_no_result_witness :
  let g := mkMetric "load" "system" (Num 3) NaN example_snapshot
                    (Num 0) (Num 0) (Num 0) (Num 0) in
  let format := formatter (fun _ _ => Throw (TypeError "tags")) (fun n => n)
                          (fun _ => "date") (fun _ => "number") Gauge in
  fst (format g example_context) = Return None /\
  snd (format g example_context) = example_context.
Proof.
  exact (not_a_number_yields_no_result
           (fun _ _ => Throw (TypeError "tags")) (fun n => n)
           (fun _ => "date") (fun _ => "number") Gauge
           (mkMetric "load" "system" (Num 3) NaN example_snapshot
                     (Num 0) (Num 0) (Num 0) (Num 0))
           example_context eq_refl).
Defined.

End LoggerNaN.

(** ** The interprocess report message: its shape *)

Module InterprocessShape.
Import Js Interprocess.

Section Shape.

Context {OverallReportContext Tags Result : Type}.

Abbreviation Message := (@InterprocessReportMessage OverallReportContext Tags Result).
Abbreviation Object := (list (string * @Value OverallReportContext Tags Result)).

Lemma fromObject_toObject (m : Message) : fromObject (toObject m) = Some m.
Proof. destruct m as [c d t [cs gs hs ms mcs ts] trt ty]. reflexivity. Qed.

Lemma results_property_Some (key : string) (o : Object) (l : list Result) :
  results_property key o = Some l -> property key o = Some (VResults l).
Proof.
  unfold results_property. destruct (property key o) as [[]|]; try discriminate.
  now intros [= ->].
Qed.

(** What a received [metrics] object holds when it can be read. *)
Lemma Metrics_fromObject_Some (o : Object) (ms : Metrics) :
  Metrics_fromObject o = Some ms ->
  property "counters" o = Some (VResults (counters ms)) /\
  property "gauges" o = Some (VResults (gauges ms)) /\
  property "histograms" o = Some (VResults (histograms ms)) /\
  property "meters" o = Some (VResults (meters ms)) /\
  property "monotoneCounters" o = Some (VResults (monotoneCounters ms)) /\
  property "timers" o = Some (VResults (timers ms)).
Proof.
  unfold Metrics_fromObject.
  destruct (results_property "counters" o) as [c|] eqn:Hc; [|discriminate].
  destruct (results_property "gauges" o) as [g|] eqn:Hg; [|discriminate].
  destruct (results_property "histograms" o) as [h|] eqn:Hh; [|discriminate].
  destruct (results_property "meters" o) as [m|] eqn:Hm; [|discriminate].
  destruct (results_property "monotoneCounters" o) as [mc|] eqn:Hmc; [|discriminate].
  destruct (results_property "timers" o) as [t|] eqn:Ht; [|discriminate].
  simpl. intros [= <-]. simpl.
  repeat split; now apply results_property_Some.
Qed.

(** What a received object holds when it can be read as a message. *)
Lemma fromObject_Some (o : Object) (m : Message) :
  fromObject o = Some m ->
  property "ctx" o = Some (VCtx (ctx m)) /\
  property "date" o = Some (VDate (date m)) /\
  property "tags" o = Some (VTags (tags m)) /\
  property "targetReporterType" o = Some (VString (targetReporterType m)) /\
  property "type" o = Some (VString (type m)) /\
  exists ms, property "metrics" o = Some (VObject ms) /\
             Metrics_fromObject ms = Some (metrics m).
Proof.
  unfold fromObject.
  destruct (property "ctx" o) as [[c| | | | |]|]; try discriminate.
  destruct (property "date" o) as [[|d| | | |]|]; try discriminate.
  destruct (property "tags" o) as [[| |t| | |]|]; try discriminate.
  destruct (property "metrics" o) as [[| | | | |ms]|]; try discriminate.
  destruct (property "targetReporterType" o) as [[| | | |trt|]|]; try discriminate.
  destruct (property "type" o) as [[| | | |ty|]|]; try discriminate.
  destruct (Metrics_fromObject ms) as [metrics|] eqn:Hms; [|discriminate].
  simpl. intros [= <-]. simpl. repeat split. eauto.
Qed.


End Shape.

(** An object as it may arrive: the properties in another order, and one
    more than a message has. *)
Definition example_object : list (string * @Value () () nat) :=
  [ ("type", VString "metrics-report");
    ("pid", VString "4711");
    ("targetReporterType", VString "logger");
    ("metrics", VObject [ ("timers", VResults []); ("counters", VResults [1; 2]);
                          ("gauges", VResults []); ("histograms", VResults []);
                          ("meters", VResults []); ("monotoneCounters", VResults [3]) ]);
    ("tags", VTags ());
    ("date", VDate (mkDate 1000));
    ("ctx", VCtx ()) ].


End InterprocessShape.

(** ** The InfluxDB sender *)

Module InfluxInit.
Import Js Influx.

(** A comparison to run the code with: the strings compared code unit by
    code unit. *)
Definition codeunit_compare (a b : string) : Z :=
  if String.eqb a b then 0%Z
  else if String.ltb a b then (-1)%Z else 1%Z.

Lemma codeunit_compare_refl (x : string) : codeunit_compare x x = 0%Z.
Proof. unfold codeunit_compare. now rewrite String.eqb_refl. Qed.

Section Collation.

Variable localeCompare : string -> string -> Z.

(** What is assumed of the collation: a string compares equal to
    itself. *)
Hypothesis localeCompare_refl : forall x, localeCompare x x = 0%Z.

Abbreviation must_create := (Influx.must_create localeCompare).
Abbreviation init_step := (Influx.init_step localeCompare).
Abbreviation init := (Influx.init localeCompare).

(** A listed name is found, and what is found is a listed name. *)
Lemma find_listed (database : string) (names : list string) :
  database ∈ names ->
  exists found,
    find (fun value => (localeCompare value database =? 0)%Z) names = Some found /\
    found ∈ names.
Proof.
  intros Hin.
  destruct (find (fun value => (localeCompare value database =? 0)%Z) names)
    as [found|] eqn:Hf.
  - exists found. split; [reflexivity|].
    apply find_some in Hf as [Hf _]. now apply list_elem_of_In.
  - exfalso. apply list_elem_of_In in Hin.
    pose proof (find_none _ _ Hf database Hin) as Hd. simpl in Hd.
    rewrite localeCompare_refl in Hd. discriminate.
Qed.

(** When the server lists no empty name, a listed database is not
    created. *)
Lemma must_create_listed (database : string) (names : list string) :
  "" ∉ names -> database ∈ names ->
  must_create database (ArrayOf names) = false.
Proof.
  intros Hne Hin. simpl. unfold Array_find.
  destruct (find_listed database names Hin) as (found & -> & Hfound). simpl.
  apply String.eqb_neq. intros ->. contradiction.
Qed.

(** [isReady()] while the promise of [init()] is followed, for a sender
    that was not ready when [init()] was called: it is [true] exactly
    when the promise is fulfilled. *)
Definition ready_iff_fulfilled (st : DefaultSender * InitPromise) : Prop :=
  isReady (fst st) = match snd st with Fulfilled => true | _ => false end.

Lemma init_call_not_ready (config : IClusterConfig) (db : InfluxDB) :
  ready_iff_fulfilled (init_call (constructor config db)).
Proof. reflexivity. Qed.

Lemma init_step_ready (st : DefaultSender * InitPromise) :
  ready_iff_fulfilled st -> ready_iff_fulfilled (init_step st).
Proof.
  destruct st as [s p]. unfold ready_iff_fulfilled, Influx.init_step.
  destruct p; simpl; intros H; try exact H.
  - destruct (getDatabaseNames_settles (db s)) as [names|e]; simpl; [|exact H].
    destruct (must_create (database (config s)) names); simpl; [exact H | reflexivity].
  - destruct (createDatabase_settles (db s) (database (config s))); simpl;
      [reflexivity | exact H].
Qed.

Lemma isReady_tracks_init (config : IClusterConfig) (db : InfluxDB) (n : nat) :
  ready_iff_fulfilled (Nat.iter n init_step (init_call (constructor config db))).
Proof.
  induction n as [|n IH]; simpl.
  - apply init_call_not_ready.
  - now apply init_step_ready.
Qed.

Lemma init_of_listed (config : IClusterConfig) (server : InfluxDB)
    (names : list string) :
  getDatabaseNames_settles server = Return (ArrayOf names) ->
  "" ∉ names -> database config ∈ names ->
  init (constructor config server)
  = (mkSender (request GetDatabaseNames server) config true, Fulfilled).
Proof.
  intros Hs Hne Hin. unfold Influx.init, init_call, Influx.init_step, constructor.
  cbn [Influx.db Influx.config Influx.ready request getDatabaseNames_settles].
  rewrite Hs. now rewrite (must_create_listed _ _ Hne Hin).
Qed.


End Collation.


(** Why the empty name is excluded: [find] returns the element it found,
    and [!] takes the empty string for "nothing found", so a listed
    empty name would be created again. *)
Lemma listed_empty_name_would_be_created :
  let server := mkInfluxDB (Return (ArrayOf ["metrics"; ""])) (fun _ => Return ()) [] in
  requests (db (fst (init codeunit_compare (constructor (mkConfig "") server))))
  = [GetDatabaseNames; CreateDatabase ""].
Proof. reflexivity. Qed.

End InfluxInit.

(** ** The CSV metric reporter: more on the dedup state *)

Module CsvEntries.
Import Js Csv.

(** [hasChanged] may change the entry of the metric it is asked about and
    nothing else: the entries of all other metrics and every other field
    of the reporter are as before, and the metric has an entry
    afterwards. *)
Theorem hasChanged_touches_one_entry (metricId : Z) (v : number) (date : Date)
    (r : CsvMetricReporter) :
  let r' := snd (hasChanged metricId v date r) in
  (forall other, other <> metricId ->
                 metricStates r' !! other = metricStates r !! other) /\
  is_Some (metricStates r' !! metricId) /\
  metricRegistries r' = metricRegistries r /\ options r' = options r /\
  tags r' = tags r /\ clock r' = clock r /\
  minReportingTimeout r' = minReportingTimeout r /\
  timer r' = timer r /\ header r' = header r.
Proof.
  intros r'. split; [|split].
  - intros other Hne. now apply CsvDedup.hasChanged_other_entries.
  - unfold r'. destruct (metricStates r !! metricId) as [stored|] eqn:H.
    + rewrite (CsvDedup.hasChanged_with_entry _ _ _ _ _ H). simpl.
      rewrite lookup_insert_eq. eauto.
    + rewrite (CsvDedup.hasChanged_without_entry _ _ _ _ H). simpl.
      rewrite lookup_insert_eq. eauto.
  - destruct (CsvTick.hasChanged_frame metricId v date r) as [m Hm].
    unfold r'. rewrite Hm. repeat split.
Qed.

(** A value that is not a number counts as changed against every stored
    value: the metric is reported on every evaluation. *)
Theorem not_a_number_always_changed (metricId : Z) (date : Date)
    (r : CsvMetricReporter) :
  fst (hasChanged metricId NaN date r) = true.
Proof.
  destruct (metricStates r !! metricId) as [stored|] eqn:H.
  - rewrite (CsvDedup.hasChanged_with_entry _ _ _ _ _ H). simpl.
    unfold CsvDedup.decision, strict_neq, strict_eq.
    now destruct (lastValue stored).
  - now rewrite (CsvDedup.hasChanged_without_entry _ _ _ _ H).
Qed.

(** A run of evaluations of one metric: the values read and the dates of
    the ticks, in order. *)
Fixpoint evaluate (metricId : Z) (ticks : list (number * Date))
    (r : CsvMetricReporter) : list bool * CsvMetricReporter :=
  match ticks with
  | [] => ([], r)
  | (v, date) :: rest =>
      let '(changed, r) := hasChanged metricId v date r in
      let '(decisions, r) := evaluate metricId rest r in
      (changed :: decisions, r)
  end.

Lemma evaluate_cons (metricId : Z) (v : number) (date : Date)
    (rest : list (number * Date)) (r : CsvMetricReporter) :
  evaluate metricId ((v, date) :: rest) r
  = (fst (hasChanged metricId v date r)
       :: fst (evaluate metricId rest (snd (hasChanged metricId v date r))),
     snd (evaluate metricId rest (snd (hasChanged metricId v date r)))).
Proof.
  simpl. destruct (hasChanged metricId v date r) as [c r1]. simpl.
  now destruct (evaluate metricId rest r1).
Qed.

Lemma hasChanged_keeps_lastValue (metricId : Z) (v : number) (date : Date)
    (r : CsvMetricReporter) (stored : MetricEntry) :
  metricStates r !! metricId = Some stored ->
  exists stored',
    metricStates (snd (hasChanged metricId v date r)) !! metricId = Some stored' /\
    lastValue stored' = lastValue stored /\
    lastReport stored' = if fst (hasChanged metricId v date r)
                         then getTime date else lastReport stored.
Proof.
  intros H. rewrite (CsvDedup.hasChanged_with_entry _ _ _ _ _ H). simpl.
  rewrite lookup_insert_eq.
  destruct (CsvDedup.decision stored v date r); eauto.
Qed.

(** Once a metric has an entry, no evaluation changes the entry's
    [lastValue]: it stays the value the entry was created with, whatever
    values are reported later. *)
Theorem lastValue_fixed_at_creation (metricId : Z) (ticks : list (number * Date))
    (r : CsvMetricReporter) (stored : MetricEntry) :
  metricStates r !! metricId = Some stored ->
  lastValue <$> metricStates (snd (evaluate metricId ticks r)) !! metricId
  = Some (lastValue stored).
Proof.
  revert r stored.
  induction ticks as [|[v date] rest IH]; intros r stored H.
  - simpl. now rewrite H.
  - rewrite evaluate_cons. simpl.
    destruct (hasChanged_keeps_lastValue metricId v date r stored H)
      as (stored' & Hs & Hv & _).
    rewrite (IH _ _ Hs). now rewrite Hv.
Qed.

Lemma lastValue_fixed_at_creation_witness :
  lastValue <$>
    metricStates
      (snd (evaluate 7 [(Num 6, mkDate 2000); (Num 7, mkDate 3000)]
              (CsvDedup.example_reporter 60 {[ 7%Z := mkMetricEntry 1000 (Num 5) ]})))
    !! 7%Z
  = Some (Num 5).
Proof.
  refine (lastValue_fixed_at_creation 7 [(Num 6, mkDate 2000); (Num 7, mkDate 3000)]
            (CsvDedup.example_reporter 60 {[ 7%Z := mkMetricEntry 1000 (Num 5) ]})
            (mkMetricEntry 1000 (Num 5)) _).
  vm_compute. reflexivity.
Defined.

(** As a consequence, a metric whose values all differ from the value its
    entry was created with is reported on every evaluation, also when
    the value did not change from one evaluation to the next. *)
Theorem differing_from_first_value_always_reported (metricId : Z)
    (ticks : list (number * Date)) (r : CsvMetricReporter) (stored : MetricEntry) :
  metricStates r !! metricId = Some stored ->
  Forall (fun tick => strict_neq (lastValue stored) (fst tick) = true) ticks ->
  Forall (fun changed => changed = true) (fst (evaluate metricId ticks r)).
Proof.
  revert r stored.
  induction ticks as [|[v date] rest IH]; intros r stored H Hall.
  - constructor.
  - rewrite evaluate_cons. simpl.
    inversion Hall as [|? ? Hv Hrest]; subst. simpl in Hv.
    destruct (hasChanged_keeps_lastValue metricId v date r stored H)
      as (stored' & Hs & Hlv & _).
    constructor.
    + rewrite (CsvDedup.hasChanged_with_entry _ _ _ _ _ H). simpl.
      unfold CsvDedup.decision. now rewrite Hv.
    + apply (IH _ stored' Hs). now rewrite Hlv.
Qed.

Lemma differing_from_first_value_always_reported_witness :
  Forall (fun changed => changed = true)
    (fst (evaluate 7 [(Num 7, mkDate 1001); (Num 7, mkDate 1002); (Num 7, mkDate 1003)]
            (CsvDedup.example_reporter 60 {[ 7%Z := mkMetricEntry 1000 (Num 5) ]}))).
Proof.
  refine (differing_from_first_value_always_reported 7
            [(Num 7, mkDate 1001); (Num 7, mkDate 1002); (Num 7, mkDate 1003)]
            (CsvDedup.example_reporter 60 {[ 7%Z := mkMetricEntry 1000 (Num 5) ]})
            (mkMetricEntry 1000 (Num 5)) _ _).
  - vm_compute. reflexivity.
  - repeat constructor.
Defined.

(** The dates at which a run of evaluations was accepted. *)
Definition accepted (ticks : list (number * Date)) (decisions : list bool)
    : list Date :=
  omap (fun p : number * Date * bool => if snd p then Some (snd (fst p)) else None)
       (zip ticks decisions).

(** Each date is more than [T] after the one before it, starting from
    [last]. *)
Fixpoint spaced (T last : Z) (dates : list Date) : Prop :=
  match dates with
  | [] => True
  | date :: rest => (last + T < getTime date)%Z /\ spaced T (getTime date) rest
  end.

(** A metric whose value stays the value of its entry is reported at most
    once per timeout: every accepted report is more than
    [minReportingTimeout] after the report before it. *)
Theorem unchanged_metric_reports_are_spaced (metricId : Z) (z : Z)
    (dates : list Date) (r : CsvMetricReporter) (stored : MetricEntry) :
  metricStates r !! metricId = Some stored ->
  lastValue stored = Num z ->
  let ticks := (fun date => (Num z, date)) <$> dates in
  spaced (minReportingTimeout r) (lastReport stored)
         (accepted ticks (fst (evaluate metricId ticks r))).
Proof.
  intros H Hv ticks. unfold ticks. clear ticks. revert r stored H Hv.
  induction dates as [|date rest IH]; intros r stored H Hv.
  - exact I.
  - rewrite fmap_cons, evaluate_cons. cbn [fst].
    destruct (hasChanged_keeps_lastValue metricId (Num z) date r stored H)
      as (stored' & Hs & Hlv & Hlr).
    destruct (CsvTick.hasChanged_frame metricId (Num z) date r) as [m Hm].
    assert (HT : minReportingTimeout (snd (hasChanged metricId (Num z) date r))
                 = minReportingTimeout r) by now rewrite Hm.
    specialize (IH _ stored' Hs (eq_trans Hlv Hv)). rewrite HT, Hlr in IH.
    unfold accepted in *. cbn [zip zip_with omap fst snd].
    destruct (fst (hasChanged metricId (Num z) date r)) eqn:Hc.
    + cbn [spaced]. split; [|exact IH].
      rewrite (CsvDedup.hasChanged_with_entry _ _ _ _ _ H) in Hc. simpl in Hc.
      unfold CsvDedup.decision in Hc. rewrite Hv in Hc.
      unfold strict_neq, strict_eq in Hc. rewrite Z.eqb_refl in Hc. simpl in Hc.
      now apply Z.ltb_lt.
    + exact IH.
Qed.

Lemma unchanged_metric_reports_are_spaced_witness :
  spaced 60 1000
    (accepted ((fun date => (Num 5, date)) <$> [mkDate 1030; mkDate 1061; mkDate 1100; mkDate 1122])
       (fst (evaluate 7 ((fun date => (Num 5, date))
                           <$> [mkDate 1030; mkDate 1061; mkDate 1100; mkDate 1122])
               (CsvDedup.example_reporter 60 {[ 7%Z := mkMetricEntry 1000 (Num 5) ]})))).
Proof.
  refine (unchanged_metric_reports_are_spaced 7 5
            [mkDate 1030; mkDate 1061; mkDate 1100; mkDate 1122]
            (CsvDedup.example_reporter 60 {[ 7%Z := mkMetricEntry 1000 (Num 5) ]})
            (mkMetricEntry 1000 (Num 5)) _ _).
  - vm_compute. reflexivity.
  - reflexivity.
Defined.

(** A metric without an [id], or with the id 0, is reported on every
    tick, and the reporter keeps no entry for it: the reporter is
    unchanged. *)
Theorem metric_without_id_always_reported (date : Date) (type : MetricType)
    (reportFunction : Metric -> Date -> Rows)
    (lastModifiedFunction : Metric -> number)
    (r : CsvMetricReporter) (w : World) (metric : Metric) :
  id metric = None \/ id metric = Some 0%Z ->
  let st' := reportMetric date type reportFunction lastModifiedFunction (r, w) metric in
  fst st' = r /\
  trace (snd st')
  = trace w ++ Evaluated metric date true
            :: (WriteRow metric <$> reportFunction metric date).
Proof.
  intros Hid. apply CsvDedup.reportMetric_without_id.
  destruct Hid as [-> | ->]; reflexivity.
Qed.

Lemma metric_without_id_always_reported_witness :
  fst (reportMetric (mkDate 5) counter reportCounter getCount
         (CsvDedup.example_reporter 60 ∅, mkWorld 0 [] [])
         (mkMetric (Some 0%Z) ∅ ∅ (Num 1) (Num 1)))
  = CsvDedup.example_reporter 60 ∅.
Proof.
  exact (proj1 (metric_without_id_always_reported (mkDate 5) counter reportCounter
                  getCount (CsvDedup.example_reporter 60 ∅) (mkWorld 0 [] [])
                  (mkMetric (Some 0%Z) ∅ ∅ (Num 1) (Num 1)) (or_intror eq_refl))).
Defined.

End CsvEntries.

(** ** The CSV metric reporter: a whole tick, and start with stop *)

Module CsvRun.
Import Js Csv.

(** The instruments a tick evaluates and the date each is evaluated with:
    registry after registry, each with the clock reading taken for it,
    the [n]-th reading for the first. *)
Fixpoint tick_schedule (clock : Clock) (n : nat) (registries : list MetricRegistry)
    : list (Metric * Date) :=
  match registries with
  | [] => []
  | registry :: rest =>
      ((fun metric => (metric, mkDate (clock n))) <$> getMetricList registry)
      ++ tick_schedule clock (S n) rest
  end.

Definition scheduled (schedule : list (Metric * Date)) (decisions : list bool)
    : list Event :=
  zip_with (fun md changed => Evaluated (fst md) (snd md) changed) schedule decisions.

Lemma scheduled_app (s1 s2 : list (Metric * Date)) (d1 d2 : list bool) :
  length d1 = length s1 ->
  scheduled (s1 ++ s2) (d1 ++ d2) = scheduled s1 d1 ++ scheduled s2 d2.
Proof. intros H. unfold scheduled. now apply zip_with_app. Qed.

Lemma scheduled_evaluations (now : Date) (metrics : list Metric) (decisions : list bool) :
  CsvTick.evaluations now metrics decisions
  = scheduled ((fun metric => (metric, now)) <$> metrics) decisions.
Proof.
  unfold CsvTick.evaluations, scheduled.
  revert decisions. induction metrics as [|m ms IH]; intros [|d ds]; simpl;
    try reflexivity.
  now rewrite IH.
Qed.

Lemma registries_fold (registries : list MetricRegistry) (r : CsvMetricReporter)
    (w : World) :
  exists (decisions : list bool) (m : gmap Z MetricEntry),
    length decisions = length (tick_schedule (clock r) (clockCalls w) registries) /\
    foldl (fun st registry => reportMetricRegistry registry st) (r, w) registries
    = (set_metricStates m r,
       mkWorld (clockCalls w + length registries) (timers w)
               (trace w ++ scheduled (tick_schedule (clock r) (clockCalls w) registries)
                                     decisions)).
Proof.
  revert r w. induction registries as [|registry rest IH]; intros r w; cbn [foldl].
  - exists [], (metricStates r). split; [reflexivity|]. simpl.
    rewrite CsvDedup.set_metricStates_id, app_nil_r, Nat.add_0_r. now destruct w.
  - destruct (CsvTick.reportMetricRegistry_batches registry r w)
      as (d1 & m1 & L1 & ->).
    destruct (IH (set_metricStates m1 r)
                 (mkWorld (S (clockCalls w)) (timers w)
                    (trace w ++ CsvTick.evaluations (mkDate (clock r (clockCalls w)))
                                  (getMetricList registry) d1)))
      as (d2 & m2 & L2 & ->).
    exists (d1 ++ d2), m2. cbn [clockCalls timers trace clock set_metricStates] in *.
    split.
    + simpl. rewrite !length_app, length_fmap. lia.
    + f_equal. f_equal; [simpl; lia|].
      cbn [tick_schedule]. rewrite scheduled_app by (now rewrite length_fmap).
      rewrite scheduled_evaluations. now rewrite <- app_assoc.
Qed.

(** One tick.  Without a registry it does nothing at all.  Otherwise it
    initialises the writer once, with the stored header, reads the clock
    once per registry, evaluates every instrument of every registry once,
    in order, each with the reading of its registry, and writes no row;
    it touches no timer and, in the reporter, only [metricStates]. *)
Theorem tick_effects (r : CsvMetricReporter) (w : World) :
  match metricRegistries r with
  | [] => report r w = (r, w)
  | _ :: _ =>
      let schedule := tick_schedule (clock r) (clockCalls w) (metricRegistries r) in
      exists (decisions : list bool) (m : gmap Z MetricEntry),
        length decisions = length schedule /\
        report r w
        = (set_metricStates m r,
           mkWorld (clockCalls w + length (metricRegistries r)) (timers w)
                   (trace w
                    ++ WriterInit (dir (options r)) (filename (options r)) (header r)
                    :: scheduled schedule decisions))
  end.
Proof.
  unfold report, has_registries.
  destruct (metricRegistries r) as [|registry rest] eqn:Hregs; [reflexivity|].
  cbn [length Nat.ltb Nat.leb].
  destruct (registries_fold (registry :: rest) r
              (log (WriterInit (dir (options r)) (filename (options r)) (header r)) w))
    as (decisions & m & Hlen & ->).
  exists decisions, m. split; [exact Hlen|].
  cbn [log clockCalls timers trace]. now rewrite <- app_assoc.
Qed.

Lemma start_returns (r r' : CsvMetricReporter) (w w' : World) :
  start r w = Return (r', w') ->
  timer r' = Some (length (timers w)) /\ options r' = options r /\
  w' = mkWorld (clockCalls w)
         (timers w ++ [mkTimer (convertTo_MILLISECOND (unit (options r))
                                  (interval (options r))) true])
         (trace w).
Proof.
  unfold start. intros H. destruct (has_registries r).
  - destruct (buildHeaders r); simpl in H; [|discriminate].
    injection H as <- <-. repeat split.
  - simpl in H. injection H as <- <-. repeat split.
Qed.

Lemma unref_last (l : list Timer) (t : Timer) (calls : nat) (events : list Event) :
  unref (length l) (mkWorld calls (l ++ [t]) events)
  = mkWorld calls (l ++ [mkTimer (timer_interval t) false]) events.
Proof.
  unfold unref. simpl. f_equal.
  induction l as [|t0 l IH]; simpl; [reflexivity|]. f_equal. exact IH.
Qed.

(** [stop()] after [start()] un-references exactly the timer that
    [start()] armed: the timers armed before are as they were, and the
    reporter is the one [start()] left. *)
Theorem stop_after_start (r r' : CsvMetricReporter) (w w' : World) :
  start r w = Return (r', w') ->
  stop r' w'
  = (r', mkWorld (clockCalls w)
           (timers w
            ++ [mkTimer (convertTo_MILLISECOND (unit (options r)) (interval (options r)))
                        false])
           (trace w)).
Proof.
  intros H. destruct (start_returns r r' w w' H) as (Ht & _ & ->).
  unfold stop. rewrite Ht. now rewrite unref_last.
Qed.

Lemma stop_after_start_witness :
  stop (set_timer (Some 0) (CsvDedup.example_reporter 1 ∅))
       (mkWorld 0 [mkTimer 1000 true] [])
  = (set_timer (Some 0) (CsvDedup.example_reporter 1 ∅),
     mkWorld 0 [mkTimer 1000 false] []).
Proof.
  exact (stop_after_start (CsvDedup.example_reporter 1 ∅)
           (set_timer (Some 0) (CsvDedup.example_reporter 1 ∅))
           (mkWorld 0 [] []) (mkWorld 0 [mkTimer 1000 true] []) eq_refl).
Defined.

(** [start()] twice and then [stop()]: the handle of the first timer was
    overwritten, so [stop()] un-references the second timer only and the
    first stays armed and referenced. *)
Theorem first_timer_leaks (r r1 r2 : CsvMetricReporter) (w w1 w2 : World) :
  start r w = Return (r1, w1) ->
  start r1 w1 = Return (r2, w2) ->
  let ms := convertTo_MILLISECOND (unit (options r)) (interval (options r)) in
  timers (snd (stop r2 w2)) = timers w ++ [mkTimer ms true; mkTimer ms false].
Proof.
  intros H1 H2 ms.
  destruct (start_returns r r1 w w1 H1) as (_ & Ho & ->).
  destruct (start_returns r1 r2 _ w2 H2) as (Ht & _ & ->).
  unfold stop. rewrite Ht. cbn [timers clockCalls trace]. rewrite unref_last.
  rewrite Ho. cbn [timers timer_interval]. now rewrite <- app_assoc.
Qed.

Lemma first_timer_leaks_witness :
  timers (snd (stop (set_timer (Some 1) (CsvDedup.example_reporter 1 ∅))
                    (mkWorld 0 [mkTimer 1000 true; mkTimer 1000 true] [])))
  = [] ++ [mkTimer 1000 true; mkTimer 1000 false].
Proof.
  exact (first_timer_leaks (CsvDedup.example_reporter 1 ∅)
           (set_timer (Some 0) (CsvDedup.example_reporter 1 ∅))
           (set_timer (Some 1) (CsvDedup.example_reporter 1 ∅))
           (mkWorld 0 [] []) (mkWorld 0 [mkTimer 1000 true] [])
           (mkWorld 0 [mkTimer 1000 true; mkTimer 1000 true] [])
           eq_refl eq_refl).
Defined.

(** The header is built in [start()] only.  A reporter started before its
    first registry was added has no header, and a tick after the registry
    was added initialises the writer with an undefined header. *)
Theorem registry_added_after_start_has_no_header
    (options : CsvMetricReporterOptions) (suppliedTags : gmap string string)
    (clock : Clock) (minReportingTimeout : Z) (w w2 : World)
    (registry : MetricRegistry) :
  exists r1 w1 rest,
    start (constructor options suppliedTags clock minReportingTimeout) w
    = Return (r1, w1) /\
    trace (snd (report (addMetricRegistry registry r1) w2))
    = trace w2 ++ WriterInit (dir options) (filename options) None :: rest.
Proof.
  set (r1 := set_timer (Some (length (timers w)))
               (constructor options suppliedTags clock minReportingTimeout)).
  destruct (registries_fold [registry] (addMetricRegistry registry r1)
              (log (WriterInit (dir options) (filename options) None) w2))
    as (decisions & m & _ & H).
  exists r1, (snd (scheduler (convertTo_MILLISECOND (unit options) (interval options)) w)).
  eexists. split; [reflexivity|].
  unfold report. cbn [has_registries addMetricRegistry metricRegistries r1 set_timer
                      constructor app length Nat.ltb Nat.leb Csv.options header].
  cbn [addMetricRegistry metricRegistries r1 set_timer constructor app
       Csv.options header] in H.
  rewrite H. cbn [snd trace log]. rewrite <- app_assoc. reflexivity.
Qed.

End CsvRun.

(** ** The CSV metric reporter: the header *)

Module CsvHeaders.
Import Js Csv.

Lemma buildHeaders_from_throws (cols : list ColumnType) (headers : Row)
    (r : CsvMetricReporter) (c : ColumnType) (e : Error) :
  c ∈ cols -> buildHeaders_column c r = Throw e ->
  exists e', buildHeaders_from cols headers r = Throw e'.
Proof.
  revert headers. induction cols as [|c0 cols IH]; intros headers Hin Hc.
  - inversion Hin.
  - simpl. destruct (buildHeaders_column c0 r) as [cells|e0] eqn:H0; simpl.
    + apply elem_of_cons in Hin as [-> | Hin]; [congruence|]. now apply IH.
    + eauto.
Qed.

(** [start()] is rejected, and no timer is armed, when a registry is
    registered, the tags are exported each in its own column, the
    columns include the tags, and the reporter's tags were never set:
    building the header then reads the keys of the undefined tag map (or
    fails before it gets there). *)
Theorem start_rejected_when_tags_undefined (r : CsvMetricReporter) (w : World) :
  metricRegistries r <> [] ->
  col_tags ∈ columns (options r) ->
  tagExportMode (options r) = EACH_IN_OWN_COLUMN ->
  tags r = None ->
  exists e, start r w = Throw e.
Proof.
  intros Hr Hin Hm Ht. unfold start, has_registries.
  destruct (metricRegistries r) as [|registry rest]; [contradiction|].
  cbn [length Nat.ltb Nat.leb].
  destruct (buildHeaders_from_throws (columns (options r)) [] r col_tags
              (TypeError "Cannot read property 'forEach' of undefined") Hin) as [e He].
  - unfold buildHeaders_column. now rewrite Hm, Ht.
  - unfold buildHeaders. rewrite He. simpl. eauto.
Qed.

Lemma start_rejected_when_tags_undefined_witness :
  exists e,
    start (mkReporter [CsvTick.registry_of (CsvDedup.example_metric 1 (Num 5))]
             (mkOptions 1000 (mkTimeUnit (fun v => v)) true false
                EACH_IN_OWN_COLUMN ALL_IN_ONE_COLUMN "," "tag_" "meta_"
                [col_date; col_tags] "utf8" "metrics.csv" "/tmp" None None)
             None (fun _ => 0%Z) 1 None ∅ None)
          (mkWorld 0 [] [])
    = Throw e.
Proof.
  refine (start_rejected_when_tags_undefined
            (mkReporter [CsvTick.registry_of (CsvDedup.example_metric 1 (Num 5))]
               (mkOptions 1000 (mkTimeUnit (fun v => v)) true false
                  EACH_IN_OWN_COLUMN ALL_IN_ONE_COLUMN "," "tag_" "meta_"
                  [col_date; col_tags] "utf8" "metrics.csv" "/tmp" None None)
               None (fun _ => 0%Z) 1 None ∅ None)
            (mkWorld 0 [] []) _ _ eq_refl eq_refl).
  - discriminate.
  - simpl. right. left.
Defined.

(** With tags and metadata each exported in one column (the defaults of
    the options), the header is the names of the configured columns, in
    their order, whatever is registered. *)
Theorem header_is_column_names (r : CsvMetricReporter) :
  tagExportMode (options r) = ALL_IN_ONE_COLUMN ->
  metadataExportMode (options r) = ALL_IN_ONE_COLUMN ->
  buildHeaders r = Return (ColumnType_name <$> columns (options r)).
Proof.
  intros Ht Hm. unfold buildHeaders.
  assert (H : forall cols headers,
             buildHeaders_from cols headers r
             = Return (headers ++ (ColumnType_name <$> cols))).
  { induction cols as [|c cols IH]; intros headers; simpl.
    - now rewrite app_nil_r.
    - assert (Hc : buildHeaders_column c r = Return [ColumnType_name c]).
      { unfold buildHeaders_column. rewrite Ht, Hm. now destruct c. }
      rewrite Hc. simpl. rewrite IH. now rewrite <- app_assoc. }
  now rewrite H.
Qed.

Lemma header_is_column_names_witness :
  buildHeaders (CsvDedup.example_reporter 1 ∅) = Return ["date"; "name"; "value"].
Proof.
  exact (header_is_column_names (CsvDedup.example_reporter 1 ∅) eq_refl eq_refl).
Defined.

Lemma elem_of_Set_add (x y : string) (s : list string) :
  x ∈ Set_add y s <-> x = y \/ x ∈ s.
Proof.
  unfold Set_add. destruct (decide (y ∈ s)) as [Hy|Hy].
  - split; [tauto|]. intros [-> | H]; assumption.
  - rewrite elem_of_app, list_elem_of_singleton. tauto.
Qed.

Lemma NoDup_Set_add (y : string) (s : list string) :
  NoDup s -> NoDup (Set_add y s).
Proof.
  intros H. unfold Set_add. destruct (decide (y ∈ s)) as [Hy|Hy]; [exact H|].
  apply NoDup_app. split; [exact H|]. split.
  - intros x Hx Hxy. apply list_elem_of_singleton in Hxy. now subst.
  - apply NoDup_singleton.
Qed.

(** Adding the names of a list to a set. *)
Lemma add_all_spec (names : list string) (s : list string) :
  let s' := foldl (fun acc name => Set_add name acc) s names in
  (NoDup s -> NoDup s') /\ (forall x, x ∈ s' <-> x ∈ s \/ x ∈ names).
Proof.
  revert s. induction names as [|name names IH]; intros s; cbn [foldl].
  - split; [tauto|]. intros x. rewrite elem_of_nil. tauto.
  - destruct (IH (Set_add name s)) as [IHn IHe]. split.
    + intros H. apply IHn. now apply NoDup_Set_add.
    + intros x. rewrite IHe, elem_of_Set_add, elem_of_cons. tauto.
Qed.

(** Adding the keys of the maps of every instrument of every registry. *)
Lemma add_all_keys_spec {V : Type} (arrays : list (list (gmap string V)))
    (s : list string) :
  let s' := foldl (fun acc array =>
                     foldl (fun acc m =>
                              foldl (fun acc name => Set_add name acc) acc (keys m))
                           acc array)
                  s arrays in
  (NoDup s -> NoDup s') /\
  (forall x, x ∈ s' <->
             x ∈ s \/ exists array m, array ∈ arrays /\ m ∈ array /\ is_Some (m !! x)).
Proof.
  assert (Hkeys : forall (m : gmap string V) x, x ∈ keys m <-> is_Some (m !! x)).
  { intros m x. unfold keys. rewrite list_elem_of_fmap. split.
    - intros ([k v] & -> & Hin). apply elem_of_map_to_list in Hin. simpl. eauto.
    - intros [v Hv]. exists (x, v). split; [reflexivity|].
      now apply elem_of_map_to_list. }
  assert (Hinner : forall (array : list (gmap string V)) s,
             let s' := foldl (fun acc m =>
                                foldl (fun acc name => Set_add name acc) acc (keys m))
                             s array in
             (NoDup s -> NoDup s') /\
             (forall x, x ∈ s' <-> x ∈ s \/ exists m, m ∈ array /\ is_Some (m !! x))).
  { induction array as [|m array IH]; intros s0; cbn [foldl].
    - split; [tauto|]. intros x. split; [tauto|].
      intros [H|(m & Hm & _)]; [exact H | inversion Hm].
    - destruct (add_all_spec (keys m) s0) as [Hn He].
      destruct (IH (foldl (fun acc name => Set_add name acc) s0 (keys m))) as [IHn IHe].
      split; [tauto|]. intros x. rewrite IHe, He, Hkeys. split.
      + intros [[H|H]|(m' & Hin & H)]; [tauto| |].
        * right. exists m. split; [left|exact H].
        * right. exists m'. split; [now right|exact H].
      + intros [H|(m' & Hin & H)]; [tauto|].
        apply elem_of_cons in Hin as [-> | Hin]; [tauto|]. right. eauto. }
  revert s. induction arrays as [|array arrays IH]; intros s; cbn [foldl].
  - split; [tauto|]. intros x. split; [tauto|].
    intros [H|(a & m & Ha & _)]; [exact H | inversion Ha].
  - destruct (Hinner array s) as [Hn He].
    destruct (IH (foldl (fun acc m =>
                           foldl (fun acc name => Set_add name acc) acc (keys m))
                        s array)) as [IHn IHe].
    split; [tauto|]. intros x. rewrite IHe, He. split.
    + intros [[H|(m & Hm & H)]|(a & m & Ha & Hm & H)]; [tauto| |].
      * right. exists array, m. split; [left|tauto].
      * right. exists a, m. split; [now right|tauto].
    + intros [H|(a & m & Ha & Hm & H)]; [tauto|].
      apply elem_of_cons in Ha as [-> | Ha]; [left; right; eauto|].
      right. eauto.
Qed.

Lemma append_inj (prefix a b : string) : prefix +:+ a = prefix +:+ b -> a = b.
Proof.
  induction prefix as [|c prefix IH]; simpl; [tauto|].
  intros [= H]. now apply IH.
Qed.

Lemma prefixed_cells (prefix : string) (flt : option (string -> bool))
    (names : list string) :
  NoDup names ->
  let cells := map (fun name => prefix +:+ name)
                   (filter (fun n => passes flt n = true) names) in
  NoDup cells /\
  (forall cell, cell ∈ cells <->
                exists name, cell = prefix +:+ name /\ passes flt name = true
                             /\ name ∈ names).
Proof.
  intros Hnd cells. unfold cells. split.
  - change (map ?f ?l) with (f <$> l). apply NoDup_fmap_2_strong.
    + intros a b _ _. apply append_inj.
    + now apply NoDup_filter.
  - intros cell. change (map ?f ?l) with (f <$> l).
    rewrite list_elem_of_fmap. split.
    + intros (name & -> & Hin). apply list_elem_of_filter in Hin. eauto.
    + intros (name & -> & Hp & Hin). exists name. split; [reflexivity|].
      now apply list_elem_of_filter.
Qed.

(** With the metadata exported each in its own column, the metadata
    columns of the header are, without repetition, the prefixed names of
    the metadata keys of all registered instruments that the filter lets
    through. *)
Theorem metadata_columns (r : CsvMetricReporter) :
  metadataExportMode (options r) = EACH_IN_OWN_COLUMN ->
  exists cells,
    buildHeaders_column col_metadata r = Return cells /\
    NoDup cells /\
    forall cell,
      cell ∈ cells <->
      exists name registry metric,
        cell = metadataColumnPrefix (options r) +:+ name /\
        passes (metadataFilter (options r)) name = true /\
        registry ∈ metricRegistries r /\ metric ∈ getMetricList registry /\
        is_Some (getMetadataMap metric !! name).
Proof.
  intros Hm. unfold buildHeaders_column. rewrite Hm.
  eexists. split; [reflexivity|].
  destruct (add_all_keys_spec
              (map (fun registry => map getMetadataMap (getMetricList registry))
                   (metricRegistries r)) []) as [Hn He].
  cbv zeta in Hn, He.
  destruct (prefixed_cells (metadataColumnPrefix (options r))
              (metadataFilter (options r)) _ (Hn (NoDup_nil_2))) as [Hnd Hcells].
  split; [exact Hnd|].
  intros cell. rewrite Hcells. split.
  - intros (name & -> & Hp & Hin). apply He in Hin as [Hin|(a & m & Ha & Hm' & Hs)];
      [inversion Hin|].
    change (map ?f ?l) with (f <$> l) in Ha.
    apply list_elem_of_fmap in Ha as (registry & -> & Hreg).
    change (map ?f ?l) with (f <$> l) in Hm'.
    apply list_elem_of_fmap in Hm' as (metric & -> & Hmet).
    exists name, registry, metric. tauto.
  - intros (name & registry & metric & -> & Hp & Hreg & Hmet & Hs).
    exists name. split; [reflexivity|]. split; [exact Hp|].
    apply He. right.
    exists (map getMetadataMap (getMetricList registry)), (getMetadataMap metric).
    split; [|split; [|exact Hs]].
    + change (map ?f ?l) with (f <$> l).
      apply list_elem_of_fmap. eauto.
    + change (map ?f ?l) with (f <$> l). now apply list_elem_of_fmap_2.
Qed.

Lemma metadata_columns_witness :
  exists cells,
    buildHeaders_column col_metadata
      (mkReporter [CsvTick.registry_of
                     (mkMetric (Some 1%Z) ∅ {[ "owner" := AnyString "ops" ]}
                               (Num 1) (Num 1))]
                  (mkOptions 1000 (mkTimeUnit (fun v => v)) true false
                     ALL_IN_ONE_COLUMN EACH_IN_OWN_COLUMN "," "tag_" "meta_"
                     [col_metadata] "utf8" "metrics.csv" "/tmp" None None)
                  None (fun _ => 0%Z) 1 None ∅ None)
    = Return cells /\ NoDup cells.
Proof.
  destruct (metadata_columns
              (mkReporter [CsvTick.registry_of
                             (mkMetric (Some 1%Z) ∅ {[ "owner" := AnyString "ops" ]}
                                       (Num 1) (Num 1))]
                 (mkOptions 1000 (mkTimeUnit (fun v => v)) true false
                    ALL_IN_ONE_COLUMN EACH_IN_OWN_COLUMN "," "tag_" "meta_"
                    [col_metadata] "utf8" "metrics.csv" "/tmp" None None)
                 None (fun _ => 0%Z) 1 None ∅ None) eq_refl)
    as (cells & Hc & Hn & _).
  exists cells. split; assumption.
Defined.

Lemma forEach_Set_add (reporterTags : gmap string string) :
  let s := forEach reporterTags (fun value tag acc => Set_add tag acc) [] in
  NoDup s /\ (forall x, x ∈ s <-> is_Some (reporterTags !! x)).
Proof.
  unfold forEach. rewrite map_fold_foldr.
  assert (H : forall l : list (string * string),
             let s := foldr (uncurry (fun key (value : string) acc => Set_add key acc)) [] l in
             NoDup s /\ (forall x, x ∈ s <-> x ∈ l.*1)).
  { induction l as [|[k v] l [IHn IHe]]; simpl.
    - split; [constructor | tauto].
    - split; [now apply NoDup_Set_add|].
      intros x. rewrite elem_of_Set_add, elem_of_cons, IHe. tauto. }
  destruct (H (map_to_list reporterTags)) as [Hn He]. split; [exact Hn|].
  intros x. rewrite He, list_elem_of_fmap. split.
  - intros ([k v] & -> & Hin). apply elem_of_map_to_list in Hin. simpl. eauto.
  - intros [v Hv]. exists (x, v). split; [reflexivity|].
    now apply elem_of_map_to_list.
Qed.

Lemma map_buildTags_value (metrics : list Metric) (r : CsvMetricReporter)
    (reporterTags : gmap string string) :
  tags r = Some reporterTags ->
  map_buildTags metrics r
  = Return (map (fun metric => delete "__proto__" (getTags metric ∪ reporterTags))
                metrics).
Proof.
  intros H. induction metrics as [|metric metrics IH]; simpl; [reflexivity|].
  rewrite (CsvTags.buildTags_defined _ _ _ H). simpl. rewrite IH. reflexivity.
Qed.

Lemma map_registries_buildTags_value (registries : list MetricRegistry)
    (r : CsvMetricReporter) (reporterTags : gmap string string) :
  tags r = Some reporterTags ->
  map_registries_buildTags registries r
  = Return (map (fun registry =>
                   map (fun metric => delete "__proto__" (getTags metric ∪ reporterTags))
                       (getMetricList registry))
                registries).
Proof.
  intros H. induction registries as [|registry registries IH]; simpl; [reflexivity|].
  rewrite (map_buildTags_value _ _ _ H). simpl. rewrite IH. reflexivity.
Qed.

(** With the tags exported each in its own column and the reporter's tags
    set, the tag columns of the header are, without repetition, the
    prefixed keys that the filter lets through of the reporter's tags
    and of the tags of all registered instruments, an instrument's tag
    ["__proto__"] apart: the instruments' keys are read off the objects
    built by [buildTags], which do not take that key. *)
Theorem tag_columns (r : CsvMetricReporter) (reporterTags : gmap string string) :
  tagExportMode (options r) = EACH_IN_OWN_COLUMN ->
  tags r = Some reporterTags ->
  exists cells,
    buildHeaders_column col_tags r = Return cells /\
    NoDup cells /\
    forall cell,
      cell ∈ cells <->
      exists tag,
        cell = tagColumnPrefix (options r) +:+ tag /\
        passes (tagFilter (options r)) tag = true /\
        (is_Some (reporterTags !! tag) \/
         (tag <> "__proto__" /\
          exists registry metric,
            registry ∈ metricRegistries r /\ metric ∈ getMetricList registry /\
            is_Some (getTags metric !! tag))).
Proof.
  intros Hm Ht. unfold buildHeaders_column. rewrite Hm, Ht.
  rewrite (map_registries_buildTags_value _ _ _ Ht). simpl mbind.
  unfold mbind, result_bind, bind.
  eexists. split; [reflexivity|].
  destruct (forEach_Set_add reporterTags) as [Hn0 He0]. cbv zeta in Hn0, He0.
  destruct (add_all_keys_spec
              (map (fun registry =>
                      map (fun metric => delete "__proto__" (getTags metric ∪ reporterTags))
                          (getMetricList registry))
                   (metricRegistries r))
              (forEach reporterTags (fun value tag acc => Set_add tag acc) []))
    as [Hn He].
  cbv zeta in Hn, He.
  destruct (prefixed_cells (tagColumnPrefix (options r)) (tagFilter (options r))
              _ (Hn Hn0)) as [Hnd Hcells].
  split; [exact Hnd|].
  intros cell. rewrite Hcells. split.
  - intros (tag & -> & Hp & Hin). exists tag. split; [reflexivity|]. split; [exact Hp|].
    apply He in Hin as [Hin|(a & m & Ha & Hm' & Hs)].
    + left. now apply He0.
    + change (map ?f ?l) with (f <$> l) in Ha.
      apply list_elem_of_fmap in Ha as (registry & -> & Hreg).
      change (map ?f ?l) with (f <$> l) in Hm'.
      apply list_elem_of_fmap in Hm' as (metric & -> & Hmet).
      apply lookup_delete_is_Some in Hs as [Hne Hs].
      apply lookup_union_is_Some in Hs as [Hs|Hs]; [|now left].
      right. split; [congruence|]. exists registry, metric. tauto.
  - intros (tag & -> & Hp & Hsrc). exists tag. split; [reflexivity|]. split; [exact Hp|].
    apply He. destruct Hsrc as [Hs|(Hne & registry & metric & Hreg & Hmet & Hs)].
    + left. now apply He0.
    + right.
      exists (map (fun metric => delete "__proto__" (getTags metric ∪ reporterTags))
                  (getMetricList registry)),
             (delete "__proto__" (getTags metric ∪ reporterTags)).
      split; [|split].
      * change (map ?f ?l) with (f <$> l). apply list_elem_of_fmap. eauto.
      * change (map ?f ?l) with (f <$> l).
        apply (list_elem_of_fmap_2
                 (fun metric => delete "__proto__" (getTags metric ∪ reporterTags))).
        exact Hmet.
      * apply lookup_delete_is_Some. split; [congruence|].
        apply lookup_union_is_Some. now left.
Qed.

Lemma tag_columns_witness :
  exists cells,
    buildHeaders_column col_tags
      (mkReporter [CsvTick.registry_of
                     (mkMetric (Some 1%Z) {[ "region" := "us" ]} ∅ (Num 1) (Num 1))]
                  (mkOptions 1000 (mkTimeUnit (fun v => v)) true false
                     EACH_IN_OWN_COLUMN ALL_IN_ONE_COLUMN "," "tag_" "meta_"
                     [col_tags] "utf8" "metrics.csv" "/tmp" None None)
                  (Some {[ "env" := "prod" ]}) (fun _ => 0%Z) 1 None ∅ None)
    = Return cells /\ NoDup cells.
Proof.
  destruct (tag_columns
              (mkReporter [CsvTick.registry_of
                             (mkMetric (Some 1%Z) {[ "region" := "us" ]} ∅ (Num 1) (Num 1))]
                 (mkOptions 1000 (mkTimeUnit (fun v => v)) true false
                    EACH_IN_OWN_COLUMN ALL_IN_ONE_COLUMN "," "tag_" "meta_"
                    [col_tags] "utf8" "metrics.csv" "/tmp" None None)
                 (Some {[ "env" := "prod" ]}) (fun _ => 0%Z) 1 None ∅ None)
              {[ "env" := "prod" ]} eq_refl eq_refl)
    as (cells & Hc & Hn & _).
  exists cells. split; assumption.
Defined.

End CsvHeaders.

(** ** The logger reporter: the lines it builds *)

Module LoggerLines.
Import Js Logger.

Section Lines.

Context {TimeUnit MetricRegistry MetricType ReportingResult : Type}.
Variable buildTags : MetricRegistry -> Metric -> result (gmap string string).
Variable getNumber : number -> number.
Variable dateToString : Date -> string.
Variable numberToString : number -> string.
Variable result_of : ReportingResult -> @LogLine TimeUnit MetricType.

Abbreviation Context := (@LoggerReportingContext TimeUnit MetricRegistry MetricType).
Abbreviation format :=
  (LoggerNaN.formatter buildTags getNumber dateToString numberToString).

Lemma format_number (v : LoggerNaN.Variant) (metric : Metric) :
  isNaN (LoggerNaN.numericValue v metric) = false ->
  exists message : Context -> string,
    (forall c1 c2 : Context, date c1 = date c2 -> message c1 = message c2) /\
    forall ctx, format v metric ctx = log_line buildTags metric ctx message.
Proof.
  intros H.
  destruct v; simpl in *;
    unfold reportCounter, reportGauge, reportHistogram, reportMeter, reportTimer;
    rewrite H; simpl; eexists; (split; [|intros ctx; reflexivity]);
    intros c1 c2 Hd; cbv beta; now rewrite Hd.
Qed.

(** For an instrument whose value is a number and whose tags can be
    built, a line is produced.  Its metadata is the context's metadata
    after the call: the measurement is the instrument's name, the group
    its group, the tags the built tags; the report interval, the unit,
    the measurement type and the timestamp are those of the context,
    whose date, registry and type are unchanged. *)
Theorem line_of_a_number (v : LoggerNaN.Variant) (metric : Metric) (ctx : Context)
    (built : gmap string string) :
  isNaN (LoggerNaN.numericValue v metric) = false ->
  buildTags (registry ctx) metric = Return built ->
  exists line ctx',
    format v metric ctx = (Return (Some line), ctx') /\
    metadata line = logMetadata ctx' /\
    measurement (metadata line) = getName metric /\
    group (metadata line) = Some (getGroup metric) /\
    tags (metadata line) = built /\
    reportInterval (metadata line) = reportInterval (logMetadata ctx) /\
    unit (metadata line) = unit (logMetadata ctx) /\
    measurement_type (metadata line) = measurement_type (logMetadata ctx) /\
    timestamp (metadata line) = timestamp (logMetadata ctx) /\
    date ctx' = date ctx /\ registry ctx' = registry ctx /\
    type ctx' = type ctx /\ metrics ctx' = metrics ctx.
Proof.
  intros H Hb. destruct (format_number v metric H) as (message & _ & Hf). rewrite Hf.
  unfold log_line, set_measurement. rewrite Hb. simpl.
  eexists _, _. split; [reflexivity|]. repeat split.
Qed.

(** When building the tags fails for an instrument whose value is a
    number, the error is passed on, and the shared context is left with
    this instrument's name and group and with the tags it had. *)
Theorem error_of_buildTags_passed_on (v : LoggerNaN.Variant) (metric : Metric)
    (ctx : Context) (e : Error) :
  isNaN (LoggerNaN.numericValue v metric) = false ->
  buildTags (registry ctx) metric = Throw e ->
  exists ctx',
    format v metric ctx = (Throw e, ctx') /\
    measurement (logMetadata ctx') = getName metric /\
    group (logMetadata ctx') = Some (getGroup metric) /\
    tags (logMetadata ctx') = tags (logMetadata ctx).
Proof.
  intros H Hb. destruct (format_number v metric H) as (message & _ & Hf). rewrite Hf.
  unfold log_line, set_measurement. rewrite Hb. simpl.
  eexists. split; [reflexivity|]. repeat split.
Qed.

Lemma set_measurement_again (metric : Metric) (ctx : Context) :
  set_measurement buildTags metric (snd (set_measurement buildTags metric ctx))
  = set_measurement buildTags metric ctx.
Proof.
  unfold set_measurement.
  destruct (buildTags (registry ctx) metric) as [built|e] eqn:Hb; simpl;
    now rewrite Hb.
Qed.

Lemma log_line_again (metric : Metric) (ctx : Context) (message : Context -> string) :
  (forall c1 c2 : Context, date c1 = date c2 -> message c1 = message c2) ->
  log_line buildTags metric (snd (log_line buildTags metric ctx message)) message
  = log_line buildTags metric ctx message.
Proof.
  intros Hmsg. unfold log_line.
  pose proof (set_measurement_again metric ctx) as Hagain.
  destruct (set_measurement buildTags metric ctx) as [[u|e] ctx1]; simpl in *;
    now rewrite Hagain.
Qed.

(** Formatting is repeatable: formatting the same instrument again, in
    the context the first call left, gives the same result and leaves
    that context as it is. *)
Theorem formatting_twice_is_formatting_once (v : LoggerNaN.Variant) (metric : Metric)
    (ctx : Context) :
  format v metric (snd (format v metric ctx)) = format v metric ctx.
Proof.
  destruct (isNaN (LoggerNaN.numericValue v metric)) eqn:H.
  - now rewrite !(LoggerNaN.formatter_not_a_number _ _ _ _ v metric _ H).
  - destruct (format_number v metric H) as (message & Hmsg & Hf).
    rewrite !Hf. now apply log_line_again.
Qed.

(** [handleResults] makes one [info] call per result, in the order of the
    results, each with the message and the metadata of its line, and
    resolves; for no results it makes no call. *)
Theorem handleResults_logs_each_result (results : list ReportingResult)
    (log : list (@LoggerHandle.InfoCall TimeUnit MetricType)) :
  LoggerHandle.handleResults result_of results log
  = (Return (),
     log ++ ((fun logLine =>
                LoggerHandle.mkInfoCall (message (result_of logLine))
                                        (metadata (result_of logLine)))
             <$> results)).
Proof.
  unfold LoggerHandle.handleResults. f_equal. revert log.
  induction results as [|logLine results IH]; intros log; simpl.
  - now rewrite app_nil_r.
  - rewrite IH. now rewrite <- app_assoc.
Qed.

End Lines.

Lemma line_of_a_number_witness :
  exists line ctx',
    LoggerNaN.formatter (fun (_ : ()) _ => Return {[ "env" := "prod" ]}) (fun n => n)
      (fun _ => "date") (fun _ => "5") LoggerNaN.Counter
      (mkMetric "requests" "http" (Num 5) NaN LoggerNaN.example_snapshot
                (Num 0) (Num 0) (Num 0) (Num 0))
      LoggerNaN.example_context
    = (Return (Some line), ctx') /\
    measurement (metadata line) = "requests".
Proof.
  destruct (line_of_a_number (fun (_ : ()) _ => Return {[ "env" := "prod" ]}) (fun n => n)
              (fun _ => "date") (fun _ => "5") LoggerNaN.Counter
              (mkMetric "requests" "http" (Num 5) NaN LoggerNaN.example_snapshot
                        (Num 0) (Num 0) (Num 0) (Num 0))
              LoggerNaN.example_context {[ "env" := "prod" ]} eq_refl eq_refl)
    as (line & ctx' & Hf & _ & Hm & _).
  exists line, ctx'. split; assumption.
Defined.

Lemma error_of_buildTags_passed_on_witness :
  exists ctx',
    LoggerNaN.formatter (fun (_ : ()) _ => Throw (TypeError "tags")) (fun n => n)
      (fun _ => "date") (fun _ => "5") LoggerNaN.Counter
      (mkMetric "requests" "http" (Num 5) NaN LoggerNaN.example_snapshot
                (Num 0) (Num 0) (Num 0) (Num 0))
      LoggerNaN.example_context
    = (Throw (TypeError "tags"), ctx') /\
    measurement (logMetadata ctx') = "requests".
Proof.
  destruct (error_of_buildTags_passed_on (fun (_ : ()) _ => Throw (TypeError "tags"))
              (fun n => n) (fun _ => "date") (fun _ => "5") LoggerNaN.Counter
              (mkMetric "requests" "http" (Num 5) NaN LoggerNaN.example_snapshot
                        (Num 0) (Num 0) (Num 0) (Num 0))
              LoggerNaN.example_context (TypeError "tags") eq_refl eq_refl)
    as (ctx' & Hf & Hm & _).
  exists ctx'. split; assumption.
Defined.

End LoggerLines.

(** ** The InfluxDB sender: failures and repeated initialisation *)

Module InfluxFailures.
Import Js Influx.

Section Collation.

(** The properties below hold whatever the collation is. *)
Variable localeCompare : string -> string -> Z.

Abbreviation must_create := (Influx.must_create localeCompare).
Abbreviation init_step := (Influx.init_step localeCompare).
Abbreviation init := (Influx.init localeCompare).

(** When the list of database names cannot be fetched, [init()] is
    rejected with that error: nothing is created and the sender does not
    become ready. *)
Theorem init_rejected_when_names_fail (s : DefaultSender) (e : Error) :
  getDatabaseNames_settles (db s) = Throw e ->
  snd (init s) = Rejected e /\
  isReady (fst (init s)) = isReady s /\
  requests (db (fst (init s))) = requests (db s) ++ [GetDatabaseNames].
Proof.
  intros H. unfold init, init_call, init_step. simpl. rewrite H. simpl.
  repeat split.
Qed.

(** When the database has to be created and creating it fails, [init()]
    is rejected with that error and the sender does not become ready. *)
Theorem init_rejected_when_create_fails (s : DefaultSender) (names : DatabaseNames)
    (e : Error) :
  getDatabaseNames_settles (db s) = Return names ->
  must_create (database (config s)) names = true ->
  createDatabase_settles (db s) (database (config s)) = Throw e ->
  snd (init s) = Rejected e /\
  isReady (fst (init s)) = isReady s /\
  requests (db (fst (init s)))
  = requests (db s) ++ [GetDatabaseNames; CreateDatabase (database (config s))].
Proof.
  intros Hn Hm Hc. unfold init, init_call, init_step. simpl.
  rewrite Hn, Hm. simpl. rewrite Hc. simpl.
  split; [reflexivity|]. split; [reflexivity|]. now rewrite <- app_assoc.
Qed.

Lemma init_step_frame (st : DefaultSender * InitPromise) :
  config (fst (init_step st)) = config (fst st) /\
  (ready (fst st) = true -> ready (fst (init_step st)) = true) /\
  exists more,
    requests (db (fst (init_step st))) = requests (db (fst st)) ++ more /\
    (more = [] \/ more = [CreateDatabase (database (config (fst st)))]).
Proof.
  destruct st as [s p]. unfold init_step.
  destruct p; simpl.
  - destruct (getDatabaseNames_settles (db s)) as [names|e]; simpl.
    + destruct (must_create (database (config s)) names); simpl.
      * split; [reflexivity|]. split; [tauto|]. eexists. split; [reflexivity|]. now right.
      * split; [reflexivity|]. split; [tauto|]. exists []. now rewrite app_nil_r; auto.
    + split; [reflexivity|]. split; [tauto|]. exists []. now rewrite app_nil_r; auto.
  - destruct (createDatabase_settles (db s) (database (config s))); simpl;
      (split; [reflexivity|]); (split; [tauto|]); exists []; rewrite app_nil_r; auto.
  - split; [reflexivity|]. split; [tauto|]. exists []. rewrite app_nil_r; auto.
  - split; [reflexivity|]. split; [tauto|]. exists []. rewrite app_nil_r; auto.
Qed.

(** Nothing in [init()] resets [ready]: a sender that is ready stays
    ready through a later [init()], while its promise is pending and also
    when it is rejected. *)
Theorem ready_is_never_reset (s : DefaultSender) (n : nat) :
  isReady s = true ->
  isReady (fst (Nat.iter n init_step (init_call s))) = true.
Proof.
  intros H. induction n as [|n IH]; simpl.
  - exact H.
  - now apply init_step_frame.
Qed.

(** [init()] asks for the database names once and then creates at most
    one database, the configured one and no other; the configuration is
    not changed. *)
Theorem init_requests (s : DefaultSender) :
  config (fst (init s)) = config s /\
  exists created,
    requests (db (fst (init s))) = requests (db s) ++ GetDatabaseNames :: created /\
    (created = [] \/ created = [CreateDatabase (database (config s))]).
Proof.
  unfold init.
  destruct (init_step_frame (init_call s)) as (Hc1 & _ & more1 & Hr1 & Hm1).
  destruct (init_step_frame (init_step (init_call s))) as (Hc2 & _ & more2 & Hr2 & Hm2).
  split; [now rewrite Hc2, Hc1|].
  rewrite Hr2, Hr1. simpl. rewrite <- !app_assoc. simpl.
  rewrite Hc1 in Hm2. simpl in Hm1, Hm2.
  destruct Hm1 as [-> | ->].
  - exists more2. split; [reflexivity | exact Hm2].
  - destruct Hm2 as [-> | ->].
    + eexists. split; [reflexivity | now right].
    + exfalso.
      (* a second creation would need a second pending creation *)
      revert Hr1 Hr2. unfold init_call, init_step. simpl.
      destruct (getDatabaseNames_settles (db s)) as [names|e]; simpl.
      * destruct (must_create (database (config s)) names); simpl.
        -- destruct (createDatabase_settles (db s) (database (config s))); simpl;
             intros _ H; apply (f_equal (@length _)) in H;
             rewrite !length_app in H; simpl in H; lia.
        -- intros _ H. apply (f_equal (@length _)) in H.
           rewrite !length_app in H; simpl in H; lia.
      * intros _ H. apply (f_equal (@length _)) in H.
        rewrite !length_app in H; simpl in H; lia.
Qed.

End Collation.

Lemma init_rejected_when_names_fail_witness :
  let s := constructor (mkConfig "metrics")
             (mkInfluxDB (Throw (TypeError "ECONNREFUSED")) (fun _ => Return ()) []) in
  snd (Influx.init InfluxInit.codeunit_compare s) = Rejected (TypeError "ECONNREFUSED") /\
  isReady (fst (Influx.init InfluxInit.codeunit_compare s)) = false /\
  requests (db (fst (Influx.init InfluxInit.codeunit_compare s))) = [] ++ [GetDatabaseNames].
Proof.
  exact (init_rejected_when_names_fail InfluxInit.codeunit_compare
           (constructor (mkConfig "metrics")
              (mkInfluxDB (Throw (TypeError "ECONNREFUSED")) (fun _ => Return ()) []))
           (TypeError "ECONNREFUSED") eq_refl).
Defined.

Lemma init_rejected_when_create_fails_witness :
  let s := constructor (mkConfig "metrics")
             (mkInfluxDB (Return (ArrayOf ["other"]))
                         (fun _ => Throw (TypeError "forbidden")) []) in
  snd (Influx.init InfluxInit.codeunit_compare s) = Rejected (TypeError "forbidden") /\
  isReady (fst (Influx.init InfluxInit.codeunit_compare s)) = false /\
  requests (db (fst (Influx.init InfluxInit.codeunit_compare s))) = [] ++ [GetDatabaseNames; CreateDatabase "metrics"].
Proof.
  exact (init_rejected_when_create_fails InfluxInit.codeunit_compare
           (constructor (mkConfig "metrics")
              (mkInfluxDB (Return (ArrayOf ["other"]))
                          (fun _ => Throw (TypeError "forbidden")) []))
           (ArrayOf ["other"]) (TypeError "forbidden") eq_refl eq_refl eq_refl).
Defined.

Lemma ready_is_never_reset_witness :
  isReady (fst (Nat.iter 1 (Influx.init_step InfluxInit.codeunit_compare)
                  (init_call (mkSender (mkInfluxDB (Throw (TypeError "down"))
                                                   (fun _ => Return ()) [])
                                       (mkConfig "metrics") true))))
  = true.
Proof.
  exact (ready_is_never_reset InfluxInit.codeunit_compare
           (mkSender (mkInfluxDB (Throw (TypeError "down")) (fun _ => Return ()) [])
                     (mkConfig "metrics") true)
           1 eq_refl).
Defined.

End InfluxFailures.

(** ** The InfluxDB sender for buckets: initialisation *)

Module InfluxBucketInit.
Import Js InfluxBucket.

Section Init.

Context {RetentionRules Point : Type}.

Abbreviation Sender := (@DefaultSender RetentionRules Point).

(** With the organization found, [init()] looks the bucket up under the
    organization's id and creates it, with the configured retention
    rules, exactly when the lookup returns no bucket; the sender is
    ready once either has succeeded. *)
Theorem bucket_created_when_missing (s : Sender) (o : Organization)
    (os : list Organization) (found : list Bucket) :
  getOrgs_settles (db s) (org s) = Return (Some (o :: os)) ->
  getBuckets_settles (db s) (org_id o) (bucket s) = Return (Some found) ->
  (found = [] ->
   postBuckets_settles (db s) (retentionRules s) (org_id o) (bucket s) = Return ()) ->
  snd (init s) = Fulfilled /\
  isReady (fst (init s)) = true /\
  requests (db (fst (init s)))
  = requests (db s)
    ++ GetOrgs (org s) :: GetBuckets (org_id o) (bucket s)
    :: match found with
       | [] => [PostBuckets (retentionRules s) (org_id o) (bucket s)]
       | _ :: _ => []
       end.
Proof.
  intros Ho Hb Hp. unfold init, init_call, init_step. simpl.
  rewrite Ho. simpl. rewrite Hb. simpl.
  destruct found as [|b bs]; simpl.
  - rewrite (Hp eq_refl). simpl. repeat split. now rewrite <- !app_assoc.
  - repeat split. now rewrite <- !app_assoc.
Qed.

(** When no organization of the configured name exists, [init()] faults
    on reading the id of the missing organization: it is rejected, the
    bucket is neither looked up nor created, and the sender does not
    become ready. *)
Theorem init_rejected_without_organization (s : Sender) :
  getOrgs_settles (db s) (org s) = Return (Some []) ->
  (exists message, snd (init s) = Rejected (TypeError message)) /\
  isReady (fst (init s)) = isReady s /\
  requests (db (fst (init s))) = requests (db s) ++ [GetOrgs (org s)].
Proof.
  intros Ho. unfold init, init_call, init_step. simpl. rewrite Ho. simpl.
  split; [eauto|]. split; reflexivity.
Qed.

(** Any failure of one of the three API calls rejects [init()] with that
    error and leaves [ready] as it was. *)
Theorem init_rejected_on_api_failure (s : Sender) (e : Error) :
  getOrgs_settles (db s) (org s) = Throw e
  \/ (exists o os, getOrgs_settles (db s) (org s) = Return (Some (o :: os)) /\
        (getBuckets_settles (db s) (org_id o) (bucket s) = Throw e \/
         (getBuckets_settles (db s) (org_id o) (bucket s) = Return (Some []) /\
          postBuckets_settles (db s) (retentionRules s) (org_id o) (bucket s) = Throw e))) ->
  snd (init s) = Rejected e /\ isReady (fst (init s)) = isReady s.
Proof.
  unfold init, init_call, init_step. simpl.
  intros [Ho | (o & os & Ho & [Hb | [Hb Hp]])]; rewrite Ho; simpl.
  - split; reflexivity.
  - rewrite Hb. simpl. split; reflexivity.
  - rewrite Hb. simpl. rewrite Hp. simpl. split; reflexivity.
Qed.

Definition bucket_ready_iff_fulfilled (st : Sender * InitPromise) : Prop :=
  isReady (fst st) = match snd st with Fulfilled => true | _ => false end.

Lemma bucket_init_step_ready (st : Sender * InitPromise) :
  bucket_ready_iff_fulfilled st -> bucket_ready_iff_fulfilled (init_step st).
Proof.
  destruct st as [s p]. unfold bucket_ready_iff_fulfilled, init_step.
  destruct p; simpl; intros H; try exact H.
  - destruct (getOrgs_settles (db s) (org s)) as [orgs|e]; simpl; [|exact H].
    destruct (first_of orgs) as [o|e]; simpl; [|exact H].
    destruct (id_of o); simpl; exact H.
  - destruct (getBuckets_settles (db s) orgID (bucket s)) as [bs|e]; simpl; [|exact H].
    destruct (first_of bs) as [[b|]|e]; simpl; [reflexivity | exact H | exact H].
  - destruct (postBuckets_settles (db s) (retentionRules s) orgID (bucket s)); simpl;
      [reflexivity | exact H].
Qed.

(** For a freshly constructed sender, at every point of [init()]
    [isReady()] is true exactly when the promise of [init()] is
    fulfilled; [send] changes neither. *)
Theorem bucket_isReady_tracks_init (database : InfluxDB) (organization bucketName : string)
    (rules : option RetentionRules) (precision : WritePrecisionType) (n : nat)
    (points : list Point) :
  let st := Nat.iter n init_step
              (init_call (constructor database organization bucketName rules precision)) in
  bucket_ready_iff_fulfilled st /\
  isReady (snd (send points (fst st))) = isReady (fst st).
Proof.
  simpl. split; [|reflexivity].
  induction n as [|n IH]; simpl.
  - reflexivity.
  - now apply bucket_init_step_ready.
Qed.

End Init.

Definition example_server (orgs : list Organization) (buckets : list Bucket)
    : @InfluxDB () () :=
  mkInfluxDB (fun _ => Return (Some orgs)) (fun _ _ => Return (Some buckets))
             (fun _ _ _ => Return ()) (fun _ => Return ()) [].

Lemma bucket_created_when_missing_witness :
  let s := constructor_default (example_server [mkOrganization (Some "o1")] [])
             "acme" "metrics" None in
  snd (init s) = Fulfilled /\
  isReady (fst (init s)) = true /\
  requests (db (fst (init s)))
  = [] ++ [GetOrgs "acme"; GetBuckets (Some "o1") "metrics";
           PostBuckets None (Some "o1") "metrics"].
Proof.
  exact (bucket_created_when_missing
           (constructor_default (example_server [mkOrganization (Some "o1")] [])
              "acme" "metrics" None)
           (mkOrganization (Some "o1")) [] [] eq_refl eq_refl (fun _ => eq_refl)).
Defined.

Lemma init_rejected_without_organization_witness :
  let s := constructor_default (example_server [] []) "acme" "metrics" None in
  (exists message, snd (init s) = Rejected (TypeError message)) /\
  isReady (fst (init s)) = false /\
  requests (db (fst (init s))) = [] ++ [GetOrgs "acme"].
Proof.
  exact (init_rejected_without_organization
           (constructor_default (example_server [] []) "acme" "metrics" None) eq_refl).
Defined.

Lemma init_rejected_on_api_failure_witness :
  let s := constructor_default
             (mkInfluxDB (fun _ => Throw (TypeError "unauthorized"))
                         (fun _ _ => Return (Some []))
                         (fun _ _ _ => Return ()) (fun _ : list () => Return ())
                         ([] : list (@Request () ())))
             "acme" "metrics" None in
  snd (init s) = Rejected (TypeError "unauthorized") /\ isReady (fst (init s)) = false.
Proof.
  exact (init_rejected_on_api_failure
           (constructor_default
              (mkInfluxDB (fun _ => Throw (TypeError "unauthorized"))
                          (fun _ _ => Return (Some []))
                          (fun _ _ _ => Return ()) (fun _ : list () => Return ())
                          ([] : list (@Request () ())))
              "acme" "metrics" None)
           (TypeError "unauthorized") (or_introl eq_refl)).
Defined.

End InfluxBucketInit.
